(** * Reefer telemetry simulator: a shallow embedding of
      [simulator/domain/reefer_simulator.py] and the properties of its
      power-off state machine, CO2 labelling and tuple variants.

    Python floats are IEEE 754 binary64 numbers, so they are modelled by
    the kernel's primitive floats; Python integers are [Z]. *)

From Stdlib Require Import ZArith List String Bool Lia.
From Stdlib Require Import PrimFloat Uint63.
Import ListNotations.

Set Warnings "-inexact-float".
Local Open Scope Z_scope.

(** ** Numbers *)

(** [float(k)] for a Python integer [k]; exact for [|k| < 2^53]. *)
Definition float_of_int (k : Z) : float :=
  if k <? 0 then PrimFloat.opp (PrimFloat.of_uint63 (Uint63.of_Z (- k)))
  else PrimFloat.of_uint63 (Uint63.of_Z k).

(** [x == 0] on floats: true for both signed zeros, false for NaN. *)
Definition is_zero (x : float) : bool := PrimFloat.eqb x 0%float.

(** ** Module constants (lines 15-21) *)

Definition CO2_LEVEL : Z := 4.
Definition O2_LEVEL : Z := 21.
Definition POWER_LEVEL : float := 7.2%float.
Definition NB_RECORDS_IMPACTED : Z := 7.
Definition MAX_RECORDS : Z := 1000.
Definition DEFROST_LEVEL : Z := 7.

(** ** Random sources

    The module draws from two process-wide generators: Python's [random]
    and NumPy's [np.random].  A generator is modelled by the sequence of
    raw draws it is going to deliver (standard normal deviates for the
    Gaussian calls, raw integers for the integer calls) and a cursor that
    every call advances by one. *)

Record Rng := mkRng {
  deviates : nat -> float;
  integers : nat -> Z;
  cursor   : nat
}.

Definition advance (g : Rng) : Rng :=
  mkRng (deviates g) (integers g) (S (cursor g)).

(** [random.gauss(mu, sigma)]: [mu + z * sigma] for the next deviate [z]. *)
Definition gauss (mu sigma : float) (g : Rng) : float * Rng :=
  (PrimFloat.add mu (PrimFloat.mul (deviates g (cursor g)) sigma), advance g).

(** [random.randint(a, b)]: an integer of [a..b], both ends included. *)
Definition randint (a b : Z) (g : Rng) : Z * Rng :=
  (a + (integers g (cursor g)) mod (b - a + 1), advance g).

(** One element of [np.random.normal(loc, scale, size=...)]. *)
Definition normal1 (loc scale : float) (g : Rng) : float * Rng :=
  (PrimFloat.add loc (PrimFloat.mul scale (deviates g (cursor g))), advance g).

(** One element of [np.random.randint(low, high, size=...)], [high] excluded. *)
Definition randint1 (low high : Z) (g : Rng) : Z * Rng :=
  (low + (integers g (cursor g)) mod (high - low), advance g).

Fixpoint draw_many {A : Type} (draw : Rng -> A * Rng) (n : nat) (g : Rng)
  : list A * Rng :=
  match n with
  | O => ([], g)
  | S k =>
      let '(x, g1) := draw g in
      let '(xs, g2) := draw_many draw k g1 in
      (x :: xs, g2)
  end.

(** ** The power-off state machine (lines 79-143) *)

(** The variables the loop carries from one iteration to the next. *)
Record sm_vars := mkVars {
  temp      : float;
  count_pwr : Z;
  pwrc      : float
}.

(** What iteration [i] stores at index [i] of the four output arrays. *)
Record sm_row := mkRow {
  new_temp              : float;
  new_maint_req         : Z;
  new_power             : float;
  new_power_consumption : float
}.

(** The body of [for i in range(nb_records)] (lines 106-136).  The integer
    0 that lines 119, 125 and 131 assign is the float 0.0 once stored in a
    float64 array, and [pwrc == 0] holds of both. *)
Definition sm_step (tgood : float) (st : sm_vars) (g : Rng)
  : sm_row * sm_vars * Rng :=
  let oldtemp := temp st in
  let '(temp1, g1) := gauss tgood 2.0%float g in
  let '(pwr, g2) := gauss POWER_LEVEL 6%float g1 in
  let '(pwrc1, g3) :=
    if is_zero (pwrc st) then gauss POWER_LEVEL 10.0%float g2
    else (PrimFloat.add pwr (pwrc st), g2) in
  let '(pwr2, count2, temp2) :=
    if PrimFloat.ltb pwr 0.0%float then
      (0%float, count_pwr st + 1, oldtemp)
    else if (0 <? count_pwr st) && (count_pwr st <? NB_RECORDS_IMPACTED) then
      (0%float, count_pwr st + 1,
       PrimFloat.add oldtemp
         (PrimFloat.mul 0.8%float (float_of_int (count_pwr st + 1))))
    else (pwr, count_pwr st, temp1) in
  let '(maintenance_flag, count3, pwrc3) :=
    if count2 =? NB_RECORDS_IMPACTED then (1, 0, 0%float)
    else (0, count2, pwrc1) in
  (mkRow temp2 maintenance_flag pwr2 pwrc3, mkVars temp2 count3 pwrc3, g3).

(** [nb] iterations of the loop, collecting the rows in order. *)
Fixpoint sm_loop (tgood : float) (nb : nat) (st : sm_vars) (g : Rng)
  : list sm_row * sm_vars * Rng :=
  match nb with
  | O => ([], st, g)
  | S k =>
      let '(row, st1, g1) := sm_step tgood st g in
      let '(rows, st2, g2) := sm_loop tgood k st1 g1 in
      (row :: rows, st2, g2)
  end.

(** The variables before the loop (lines 102-104). *)
Definition sm_init (tgood : float) (g : Rng) : sm_vars * Rng :=
  let '(t0, g1) := gauss tgood 3.0%float g in
  (mkVars t0 0 0%float, g1).

(** ** Exceptions and the ambient state

    A call either returns a value or raises; in both cases the draws it
    consumed stay consumed. *)

Inductive exn :=
| ValueError
| TypeError
| KeyError (key : string)
| NameError (name : string).

Inductive result (A : Type) :=
| Ok (a : A)
| Raise (e : exn).
Arguments Ok {A} a.
Arguments Raise {A} e.

Record World := mkWorld {
  py_random : Rng;   (* the [random] module's generator *)
  np_random : Rng;   (* [np.random]'s generator *)
  today     : Z      (* [datetime.datetime.today()], in microseconds *)
}.

Definition M (A : Type) : Type := World -> result A * World.

Definition ret {A} (a : A) : M A := fun w => (Ok a, w).
Definition raise {A} (e : exn) : M A := fun w => (Raise e, w).
Definition bind {A B} (c : M A) (k : A -> M B) : M B :=
  fun w =>
    match c w with
    | (Ok a, w1) => k a w1
    | (Raise e, w1) => (Raise e, w1)
    end.

Notation "x <- c ;; k" := (bind c (fun x => k))
  (at level 61, c at next level, right associativity).

Definition with_py {A} (f : Rng -> A * Rng) : M A :=
  fun w =>
    let '(a, g) := f (py_random w) in
    (Ok a, mkWorld g (np_random w) (today w)).

Definition with_np {A} (f : Rng -> A * Rng) : M A :=
  fun w =>
    let '(a, g) := f (np_random w) in
    (Ok a, mkWorld (py_random w) g (today w)).

Definition datetime_today : M Z := fun w => (Ok (today w), w).

(** ** NumPy array builders; each rejects a negative length *)

Definition np_repeat {A} (x : A) (n : Z) : M (list A) :=
  if n <? 0 then raise ValueError else ret (repeat x (Z.to_nat n)).

Definition np_random_normal (loc scale : float) (size : Z) : M (list float) :=
  if size <? 0 then raise ValueError
  else with_np (draw_many (normal1 loc scale) (Z.to_nat size)).

Definition np_random_randint (low high size : Z) : M (list Z) :=
  if size <? 0 then raise ValueError
  else with_np (draw_many (randint1 low high) (Z.to_nat size)).

(** ** Data frames: named columns, in order *)

Inductive column :=
| FloatCol (v : list float)
| IntCol (v : list Z)
| StrCol (v : list string)
| TimeCol (v : list Z).

Definition DataFrame := list (string * column).

Definition col_length (c : column) : nat :=
  match c with
  | FloatCol v => List.length v
  | IntCol v => List.length v
  | StrCol v => List.length v
  | TimeCol v => List.length v
  end.

Fixpoint df_lookup (name : string) (df : DataFrame) : option column :=
  match df with
  | [] => None
  | (k, c) :: rest => if String.eqb k name then Some c else df_lookup name rest
  end.

(** [df[name]] and [d[name]] on a dict of arrays. *)
Definition df_getitem (name : string) (df : DataFrame) : M column :=
  match df_lookup name df with
  | Some c => ret c
  | None => raise (KeyError name)
  end.

Fixpoint df_put (name : string) (c : column) (df : DataFrame) : DataFrame :=
  match df with
  | [] => [(name, c)]
  | (k, c0) :: rest =>
      if String.eqb k name then (k, c) :: rest
      else (k, c0) :: df_put name c rest
  end.

(** [df[name] = values]: an existing column is replaced where it stands, a
    new one is appended; the length must be the frame's number of rows. *)
Definition df_setitem (name : string) (c : column) (df : DataFrame)
  : M DataFrame :=
  match df with
  | [] => ret [(name, c)]
  | (_, c0) :: _ =>
      if Nat.eqb (col_length c) (col_length c0) then ret (df_put name c df)
      else raise ValueError
  end.

(** [df[names]]: the named columns, in the order asked for. *)
Fixpoint df_select (names : list string) (df : DataFrame) : M DataFrame :=
  match names with
  | [] => ret []
  | n :: rest =>
      c <- df_getitem n df ;;
      sel <- df_select rest df ;;
      ret ((n, c) :: sel)
  end.

Definition floats_of (c : column) : M (list float) :=
  match c with
  | FloatCol v => ret v
  | _ => raise TypeError
  end.

(** [Series.cumsum()] on a float column (pandas' default [skipna=True]):
    a NaN entry stays NaN and is left out of the running sum; the first sum
    is the first entry itself. *)
Fixpoint cumsum_from (acc : float) (v : list float) : list float :=
  match v with
  | [] => []
  | x :: rest =>
      if PrimFloat.is_nan x then x :: cumsum_from acc rest
      else let s := PrimFloat.add acc x in s :: cumsum_from s rest
  end.

Fixpoint cumsum (v : list float) : list float :=
  match v with
  | [] => []
  | x :: rest =>
      if PrimFloat.is_nan x then x :: cumsum rest
      else x :: cumsum_from x rest
  end.

Local Open Scope string_scope.
Local Open Scope Z_scope.

(** ** Module-level helpers (lines 24-143) *)

(** Fifteen minutes, in microseconds. *)
Definition FIFTEEN_MIN : Z := 15 * 60 * 1000000.

(** [pd.date_range(start, periods=n, freq="15min")]. *)
Definition pd_date_range (start n : Z) : M (list Z) :=
  if n <? 0 then raise ValueError
  else ret (map (fun i => start + Z.of_nat i * FIFTEEN_MIN)
                (seq 0 (Z.to_nat n))).

Definition _generateTimestamps (nb_records : Z) (start_time : option Z)
  : M (list Z) :=
  start <- match start_time with
           | None => datetime_today
           | Some t => ret t
           end ;;
  pd_date_range start nb_records.

Definition _generateStationaryCols (nb_records : Z) (cid : string)
    (content_type : option Z) (tgood : float) : M DataFrame :=
  ct <- match content_type with
        | None => with_py (randint 1 5)
        | Some c => ret c
        end ;;
  ids <- np_repeat cid nb_records ;;
  cts <- np_repeat ct nb_records ;;
  tgoods <- np_repeat tgood nb_records ;;
  o2 <- np_random_normal (float_of_int O2_LEVEL) 3.0%float nb_records ;;
  co2 <- np_random_normal (float_of_int CO2_LEVEL) 3.0%float nb_records ;;
  door <- np_random_normal 30.0%float 2.0%float nb_records ;;
  temps <- np_random_normal tgood 2.0%float nb_records ;;
  power <- np_random_normal POWER_LEVEL 6%float nb_records ;;
  defrost <- np_random_randint 0 DEFROST_LEVEL nb_records ;;
  ret [ ("ID", StrCol ids);
        ("ContentType", IntCol cts);
        ("Target_Temperature(celsius)", FloatCol tgoods);
        ("O2", FloatCol o2);
        ("CO2", FloatCol co2);
        ("Time_Door_Open", FloatCol door);
        ("Temperature(celsius)", FloatCol temps);
        ("Power", FloatCol power);
        ("Defrost_Cycle", IntCol defrost) ].

(** The four arrays of [_simulatePowerOff], read off the rows. *)
Definition sm_columns (rows : list sm_row) : DataFrame :=
  [ ("Temperature(celsius)", FloatCol (map new_temp rows));
    ("Maintenance_Required", IntCol (map new_maint_req rows));
    ("Power", FloatCol (map new_power rows));
    ("PowerConsumption", FloatCol (map new_power_consumption rows)) ].

(** The rows of a run of [nb] records, from the generator's state. *)
Definition sm_run (tgood : float) (nb : nat) (g : Rng) : list sm_row * Rng :=
  let '(st0, g0) := sm_init tgood g in
  let '(rows, _, g1) := sm_loop tgood nb st0 g0 in
  (rows, g1).

Definition _simulatePowerOff (nb_records : Z) (tgood : float) : M DataFrame :=
  if nb_records <? 0 then raise ValueError   (* np.ndarray(nb_records) *)
  else with_py (fun g =>
         let '(rows, g1) := sm_run tgood (Z.to_nat nb_records) g in
         (sm_columns rows, g1)).

(** ** class ReeferSimulator (lines 146-288) *)

Definition COLUMN_ORDER : list string :=
  [ "Timestamp"; "ID"; "Temperature(celsius)";
    "Target_Temperature(celsius)"; "Power"; "PowerConsumption";
    "ContentType"; "O2"; "CO2"; "Time_Door_Open";
    "Maintenance_Required"; "Defrost_Cycle" ].

(** [for col_name in names: df[col_name] = results[col_name]]. *)
Fixpoint copy_columns (names : list string) (results df : DataFrame)
  : M DataFrame :=
  match names with
  | [] => ret df
  | n :: rest =>
      c <- df_getitem n results ;;
      df1 <- df_setitem n c df ;;
      copy_columns rest results df1
  end.

Definition generatePowerOff (cid : string) (nb_records : Z) (tgood : float)
    (content_type : option Z) (start_time : option Z) : M DataFrame :=
  df <- _generateStationaryCols nb_records cid content_type tgood ;;
  ts <- _generateTimestamps nb_records start_time ;;
  df <- df_setitem "Timestamp" (TimeCol ts) df ;;
  state_machine_results <- _simulatePowerOff nb_records tgood ;;
  df <- copy_columns [ "Temperature(celsius)"; "Maintenance_Required";
                       "Power"; "PowerConsumption" ]
                     state_machine_results df ;;
  df_select COLUMN_ORDER df.

(** [((co2 > CO2_LEVEL) | (co2 < 0)).astype(np.int)] on one entry
    ([np.int] is NumPy's alias of the builtin [int]): 1 for True, 0 for
    False. *)
Definition co2_flag (co2 : float) : Z :=
  if PrimFloat.ltb (float_of_int CO2_LEVEL) co2 || PrimFloat.ltb co2 0%float
  then 1 else 0.

Definition generateCo2 (cid : string) (nb_records : Z) (tgood : float)
    (content_type : option Z) (start_time : option Z) : M DataFrame :=
  df <- _generateStationaryCols nb_records cid content_type tgood ;;
  ts <- _generateTimestamps nb_records start_time ;;
  df <- df_setitem "Timestamp" (TimeCol ts) df ;;
  power <- (c <- df_getitem "Power" df ;; floats_of c) ;;
  df <- df_setitem "PowerConsumption" (FloatCol (cumsum power)) df ;;
  co2 <- (c <- df_getitem "CO2" df ;; floats_of c) ;;
  df <- df_setitem "Maintenance_Required" (IntCol (map co2_flag co2)) df ;;
  df_select COLUMN_ORDER df.

(** *** Row tuples *)

Inductive cell :=
| FloatCell (x : float)
| IntCell (k : Z)
| StrCell (s : string)
| TimeCell (t : Z).

Definition col_cell (c : column) (i : nat) : option cell :=
  match c with
  | FloatCol v => option_map FloatCell (nth_error v i)
  | IntCol v => option_map IntCell (nth_error v i)
  | StrCol v => option_map StrCell (nth_error v i)
  | TimeCol v => option_map TimeCell (nth_error v i)
  end.

Fixpoint record_at (df : DataFrame) (i : nat) : list cell :=
  match df with
  | [] => []
  | (_, c) :: rest =>
      match col_cell c i with
      | Some x => x :: record_at rest i
      | None => record_at rest i
      end
  end.

Definition df_nrows (df : DataFrame) : nat :=
  match df with
  | [] => O
  | (_, c) :: _ => col_length c
  end.

(** [list(df.to_records(index=False))]: one tuple per row, fields in the
    frame's column order. *)
Definition to_records (df : DataFrame) : list (list cell) :=
  map (record_at df) (seq 0 (df_nrows df)).

(** What a free (unqualified) name inside a method body can evaluate to.
    The module binds its imports (lines 1-5), its constants (15-21), the
    three helper functions and the class; [generatePowerOff] and
    [generateCo2] are attributes of the class and are bound nowhere at
    module level.  No module-level object is a scenario generator, so each
    entry is marked [None]. *)
Definition scenario_fn : Type :=
  string -> Z -> float -> option Z -> option Z -> M DataFrame.

Definition module_globals : list (string * option scenario_fn) :=
  [ ("csv", None); ("sys", None); ("json", None); ("datetime", None);
    ("random", None); ("np", None); ("pd", None); ("os", None);
    ("CO2_LEVEL", None); ("O2_LEVEL", None); ("NITROGEN_LEVEL", None);
    ("POWER_LEVEL", None); ("NB_RECORDS_IMPACTED", None);
    ("MAX_RECORDS", None); ("DEFROST_LEVEL", None);
    ("_generateTimestamps", None); ("_generateStationaryCols", None);
    ("_simulatePowerOff", None); ("ReeferSimulator", None) ].

Fixpoint lookup_global (name : string)
    (globals : list (string * option scenario_fn))
  : option (option scenario_fn) :=
  match globals with
  | [] => None
  | (k, v) :: rest =>
      if String.eqb k name then Some v else lookup_global name rest
  end.

(** Evaluating the free name [name] as the callee of a scenario call. *)
Definition load_global (name : string) : M scenario_fn :=
  match lookup_global name module_globals with
  | None => raise (NameError name)
  | Some None => raise TypeError
  | Some (Some f) => ret f
  end.

(** Lines 218-225 and 281-288: force the maintenance column to 0 and
    return the rows as tuples. *)
Definition tuples_of (df : DataFrame) (nb_records : Z) : M (list (list cell)) :=
  zeros <- np_repeat 0 nb_records ;;
  df <- df_setitem "Maintenance_Required" (IntCol zeros) df ;;
  ret (to_records df).

Definition generatePowerOffTuples (cid : string) (nb_records : Z)
    (tgood : float) (content_type : option Z) (start_time : option Z)
  : M (list (list cell)) :=
  callee <- load_global "generatePowerOff" ;;
  df <- callee cid nb_records tgood content_type None ;;
  tuples_of df nb_records.

Definition generateCo2Tuples (cid : string) (nb_records : Z)
    (tgood : float) (content_type : option Z) (start_time : option Z)
  : M (list (list cell)) :=
  callee <- load_global "generateCo2" ;;
  df <- callee cid nb_records tgood content_type start_time ;;
  tuples_of df nb_records.

(** ** Vocabulary of the properties *)

(** The loop variables and the generator at the top of iteration [i]. *)
Fixpoint sm_before (tgood : float) (i : nat) (st : sm_vars) (g : Rng)
  : sm_vars * Rng :=
  match i with
  | O => (st, g)
  | S k =>
      let '(_, st1, g1) := sm_step tgood st g in
      sm_before tgood k st1 g1
  end.

Definition sm_at (tgood : float) (g : Rng) (i : nat) : sm_vars * Rng :=
  let '(st0, g0) := sm_init tgood g in
  sm_before tgood i st0 g0.

Definition vars_at (tgood : float) (g : Rng) (i : nat) : sm_vars :=
  fst (sm_at tgood g i).
Definition rng_at (tgood : float) (g : Rng) (i : nat) : Rng :=
  snd (sm_at tgood g i).
Definition count_at (tgood : float) (g : Rng) (i : nat) : Z :=
  count_pwr (vars_at tgood g i).

(** The row that iteration [i] of a run stores. *)
Definition sm_row_at (tgood : float) (g : Rng) (i : nat) : sm_row :=
  let '(st, gi) := sm_at tgood g i in
  fst (fst (sm_step tgood st gi)).

(** The three draws an iteration makes from generator state [g], in the
    order of lines 107, 109 and 111 (the third only when [pwrc == 0]). *)
Definition sampled_temp (tgood : float) (g : Rng) : float :=
  fst (gauss tgood 2.0%float g).
Definition sampled_pwr (g : Rng) : float :=
  fst (gauss POWER_LEVEL 6%float (advance g)).
Definition sampled_reseed (g : Rng) : float :=
  fst (gauss POWER_LEVEL 10.0%float (advance (advance g))).

(** [0 < c < NB_RECORDS_IMPACTED], the test of line 122. *)
Definition in_episode (c : Z) : bool :=
  (0 <? c) && (c <? NB_RECORDS_IMPACTED).

(** The value of [count_pwr] at line 127, after the branch of lines
    118-126, from its value [c] at the top of the iteration. *)
Definition counter_after_branch (c : Z) (pwr : float) : Z :=
  if PrimFloat.ltb pwr 0.0%float then c + 1
  else if (0 <? c) && (c <? NB_RECORDS_IMPACTED) then c + 1
  else c.

(** The temperature held at the top of iteration [i]: the draw of line 102
    for the first row, the previous row's temperature afterwards. *)
Definition previous_temp (tgood : float) (g : Rng) (rows : list sm_row)
    (i : nat) : float :=
  match i with
  | O => fst (gauss tgood 3.0%float g)
  | S j => nth j (map new_temp rows) 0%float
  end.

(** The accumulator held at the top of iteration [i]: 0 for the first row,
    the previous row's [PowerConsumption] afterwards. *)
Definition previous_pwrc (rows : list sm_row) (i : nat) : float :=
  match i with
  | O => 0%float
  | S j => nth j (map new_power_consumption rows) 0%float
  end.

(** The generator the state machine starts from: [random.randint] has been
    called once when no content type was supplied. *)
Definition py_after_content_type (content_type : option Z) (g : Rng) : Rng :=
  match content_type with
  | None => advance g
  | Some _ => g
  end.

(** Length of the run of zero entries of [v] that ends at index [i]. *)
Fixpoint zero_run_back (v : list float) (i : nat) : nat :=
  match nth_error v i with
  | Some x =>
      if is_zero x then
        S (match i with
           | O => O
           | S j => zero_run_back v j
           end)
      else O
  | None => O
  end.

(** Length of the longest run of consecutive zero entries of [v]. *)
Fixpoint zero_runs (cur best : nat) (v : list float) : nat :=
  match v with
  | [] => Nat.max cur best
  | x :: rest =>
      if is_zero x then zero_runs (S cur) best rest
      else zero_runs O (Nat.max cur best) rest
  end.

Definition longest_zero_run (v : list float) : nat := zero_runs O O v.

(** [v[0] + v[1] + ... + v[i]], added from left to right. *)
Fixpoint sum_upto (v : list float) (i : nat) : float :=
  match i with
  | O => nth O v 0%float
  | S j => PrimFloat.add (sum_upto v j) (nth (S j) v 0%float)
  end.

Definition no_nan (v : list float) : Prop :=
  Forall (fun x => PrimFloat.is_nan x = false) v.

(** *** Sample generators used in the examples *)

(** A generator that delivers the listed deviates, then zeros, and the
    integers 0, 1, 2, ... *)
Definition tape_rng (zs : list float) : Rng :=
  mkRng (fun i => nth i zs 0%float) (fun i => Z.of_nat i) O.

(** With target 4.4 the power draw of row 1 is [7.2 - 2 * 6 < 0] and every
    other one is positive: one episode, rows 1 to 7, flagged on row 7. *)
Definition mixed_tape : list float :=
  [ 0.5; 0.25; 1; 0.5; -0.25; -2; 1.5; 0.75;
    0.5; 0.125; -0.5; 1; 0.25; 0.5; -1; 0.75;
    0.25; 0.5; 1; -0.125; 0.5; 0.75; 0.25; 1 ]%float.
Definition mixed_world : World :=
  mkWorld (tape_rng mixed_tape) (tape_rng mixed_tape) 1000000.

(** The deviates of [mixed_tape] with the power draw of row 8 made
    negative ([7.2 - 1.5 * 6]), so that a second episode, rows 8 to 14,
    starts right after the first. *)
Definition adjacent_tape : list float :=
  [ 0.5; 0.25; 1; 0.5; -0.25; -2; 1.5; 0.75;
    0.5; 0.125; -0.5; 1; 0.25; 0.5; -1; 0.75;
    0.25; 0.5; 1; -1.5; 0.5; 0.75; 0.25; 1 ]%float.
Definition adjacent_world : World :=
  mkWorld (tape_rng adjacent_tape) (tape_rng adjacent_tape) 1000000.

(** ** Further vocabulary: what the generators draw and return *)

(** The generator after [k] more draws. *)
Definition skip (k : nat) (g : Rng) : Rng :=
  mkRng (deviates g) (integers g) (cursor g + k).

(** The content type of a Dataset: the one supplied, or the draw of
    line 58. *)
Definition chosen_content_type (content_type : option Z) (g : Rng) : Z :=
  match content_type with
  | None => fst (randint 1 5 g)
  | Some c => c
  end.

(** The instant of the first row: the one supplied, or the clock's. *)
Definition start_instant (start_time : option Z) (w : World) : Z :=
  match start_time with
  | None => today w
  | Some t => t
  end.

(** The [n] floats [np.random.normal(loc, scale, size=n)] returns from
    generator [g] once [k] draws have been made from it. *)
Definition normal_block (loc scale : float) (g : Rng) (k n : nat)
  : list float :=
  map (fun i =>
         PrimFloat.add loc
           (PrimFloat.mul scale (deviates g (cursor g + k + i))))
      (seq 0 n).

(** The same for [np.random.randint(low, high, size=n)]. *)
Definition randint_block (low high : Z) (g : Rng) (k n : nat) : list Z :=
  map (fun i => low + (integers g (cursor g + k + i)) mod (high - low))
      (seq 0 n).

(** Number of entries of an integer column equal to 1. *)
Definition flag_count (mr : list Z) : nat := count_occ Z.eq_dec mr 1.

(** Number of rows [i < n] of a run entered with a zero accumulator,
    that is, of calls to [random.gauss(POWER_LEVEL, 10.0)]. *)
Definition reseed_count (rows : list sm_row) (n : nat) : nat :=
  List.length (filter (fun i => is_zero (previous_pwrc rows i)) (seq 0 n)).

(** [df] is the Dataset one of the two tabular generators returns, and
    [w'] the state it leaves. *)
Definition scenario_returns (cid : string) (n : Z) (tgood : float)
    (ct start : option Z) (w : World) (df : DataFrame) (w' : World) : Prop :=
  generatePowerOff cid n tgood ct start w = (Ok df, w') \/
  generateCo2 cid n tgood ct start w = (Ok df, w').

(** ** scoring/KcProducer.py *)

Module KcProducer.

(** A Python dict with string keys and values, in insertion order. *)
Definition dict := list (string * string).

Fixpoint dict_get (k : string) (d : dict) : option string :=
  match d with
  | [] => None
  | (k0, v) :: rest => if String.eqb k0 k then Some v else dict_get k rest
  end.

(** [d[k] = v]. *)
Fixpoint dict_set (k v : string) (d : dict) : dict :=
  match d with
  | [] => [(k, v)]
  | (k0, v0) :: rest =>
      if String.eqb k0 k then (k0, v) :: rest
      else (k0, v0) :: dict_set k v rest
  end.

(** The object [confluent_kafka.Producer(options)] stands for here: the
    configuration it was built from and the messages (topic, key, value)
    handed to [produce], oldest first. *)
Record Producer := mkProducer {
  config   : dict;
  produced : list (string * string * string)
}.

(** An instance of the class; [producer] is unset until
    [prepareProducer] has run. *)
Record instance := mkInstance {
  kafka_env    : string;
  kafka_brokers : string;
  kafka_apikey : string;
  topic_name   : string;
  producer     : option Producer
}.

(** Lines 12-26.  [stdout] is the list of the values printed so far; the
    call prints the options it built. *)
Definition prepareProducer (self : instance) (groupID : string)
    (stdout : list dict) : instance * list dict :=
  let options :=
    [ ("bootstrap.servers", kafka_brokers self); ("group.id", groupID) ] in
  let options :=
    if negb (String.eqb (kafka_env self) "LOCAL") then
      dict_set "sasl.password" (kafka_apikey self)
        (dict_set "sasl.username" "token"
           (dict_set "sasl.mechanisms" "PLAIN"
              (dict_set "security.protocol" "SASL_SSL" options)))
    else options in
  let options :=
    if String.eqb (kafka_env self) "ICP" then
      dict_set "ssl.ca.location" "es-cert.pem" options
    else options in
  (mkInstance (kafka_env self) (kafka_brokers self) (kafka_apikey self)
     (topic_name self) (Some (mkProducer options [])),
   (stdout ++ [options])%list).

(** Lines 5-10. *)
Definition init (kafka_env kafka_brokers kafka_apikey topic_name
                 groupID : string) (stdout : list dict)
  : instance * list dict :=
  prepareProducer
    (mkInstance kafka_env kafka_brokers kafka_apikey topic_name None)
    groupID stdout.

Inductive error :=
| NameError (name : string)
| AttributeError (attr : string)
| KeyError (key : string).

(** What a free name of the module can evaluate to when it is used as
    [json] is: the module binds [Producer] (line 1) and the class, and
    neither has a [dumps]; [json] itself is never imported. *)
Definition json_dumps : Type := dict -> string.

Definition module_globals : list (string * option json_dumps) :=
  [ ("Producer", None); ("KcProducer", None) ].

Fixpoint lookup_global (name : string)
    (globals : list (string * option json_dumps))
  : option (option json_dumps) :=
  match globals with
  | [] => None
  | (k, v) :: rest =>
      if String.eqb k name then Some v else lookup_global name rest
  end.

(** Lines 36-39.  [produce] queues the message; [flush] changes nothing
    of the state kept here. *)
Definition publishEvent (self : instance) (topicName : string)
    (eventToSend : dict) (keyName : string) : error + instance :=
  match lookup_global "json" module_globals with
  | None => inl (NameError "json")
  | Some None => inl (AttributeError "dumps")
  | Some (Some dumps) =>
      let dataStr := dumps eventToSend in
      match producer self with
      | None => inl (AttributeError "producer")
      | Some p =>
          match dict_get keyName eventToSend with
          | None => inl (KeyError keyName)
          | Some key =>
              inr (mkInstance (kafka_env self) (kafka_brokers self)
                     (kafka_apikey self) (topic_name self)
                     (Some (mkProducer (config p)
                              (produced p ++ [(topicName, key, dataStr)])%list)))
          end
      end
  end.

End KcProducer.

(** * Properties *)

(** ** The loop as a sequence of steps *)

Lemma sm_before_succ tgood i : forall st g,
  sm_before tgood (S i) st g =
  let '(st1, g1) := sm_before tgood i st g in
  let '(_, st2, g2) := sm_step tgood st1 g1 in (st2, g2).
Proof.
  induction i as [|i IH]; intros st g.
  - simpl. destruct (sm_step tgood st g) as [[row st1] g1]. reflexivity.
  - change (sm_before tgood (S (S i)) st g)
      with (let '(_, st1, g1) := sm_step tgood st g in
            sm_before tgood (S i) st1 g1).
    destruct (sm_step tgood st g) as [[row st1] g1] eqn:E.
    rewrite IH. simpl. rewrite E. reflexivity.
Qed.

Lemma sm_at_succ tgood g i :
  sm_at tgood g (S i) =
  let '(st1, g1) := sm_at tgood g i in
  let '(_, st2, g2) := sm_step tgood st1 g1 in (st2, g2).
Proof.
  unfold sm_at. destruct (sm_init tgood g) as [st0 g0].
  apply sm_before_succ.
Qed.

Lemma sm_loop_length tgood nb : forall st g,
  List.length (fst (fst (sm_loop tgood nb st g))) = nb.
Proof.
  induction nb as [|nb IH]; intros st g; simpl; [reflexivity|].
  destruct (sm_step tgood st g) as [[row st1] g1].
  specialize (IH st1 g1).
  destruct (sm_loop tgood nb st1 g1) as [[rows st2] g2].
  simpl in *. now rewrite IH.
Qed.

Lemma sm_loop_nth tgood nb : forall st g i,
  (i < nb)%nat ->
  nth_error (fst (fst (sm_loop tgood nb st g))) i =
  Some (let '(sti, gi) := sm_before tgood i st g in
        fst (fst (sm_step tgood sti gi))).
Proof.
  induction nb as [|nb IH]; intros st g i Hi; [lia|].
  simpl. destruct (sm_step tgood st g) as [[row st1] g1] eqn:E.
  specialize (IH st1 g1).
  destruct (sm_loop tgood nb st1 g1) as [[rows st2] g2].
  destruct i as [|i]; simpl.
  - now rewrite E.
  - rewrite E. simpl in IH. apply IH. lia.
Qed.

Lemma sm_run_length tgood nb g :
  List.length (fst (sm_run tgood nb g)) = nb.
Proof.
  unfold sm_run. destruct (sm_init tgood g) as [st0 g0].
  pose proof (sm_loop_length tgood nb st0 g0) as H.
  destruct (sm_loop tgood nb st0 g0) as [[rows st1] g1]. exact H.
Qed.

Lemma sm_run_nth tgood nb g i :
  (i < nb)%nat ->
  nth_error (fst (sm_run tgood nb g)) i = Some (sm_row_at tgood g i).
Proof.
  intros Hi. unfold sm_run, sm_row_at, sm_at.
  destruct (sm_init tgood g) as [st0 g0].
  pose proof (sm_loop_nth tgood nb st0 g0 i Hi) as H.
  destruct (sm_loop tgood nb st0 g0) as [[rows st1] g1]. exact H.
Qed.

Lemma sm_run_row tgood nb g i row :
  nth_error (fst (sm_run tgood nb g)) i = Some row ->
  (i < nb)%nat /\ row = sm_row_at tgood g i.
Proof.
  intros H.
  assert (Hi : (i < nb)%nat).
  { rewrite <- (sm_run_length tgood nb g). apply nth_error_Some. congruence. }
  split; [exact Hi|]. rewrite (sm_run_nth _ _ _ _ Hi) in H. congruence.
Qed.

(** ** One iteration in closed form *)

Lemma sm_step_closed tgood st g :
  sm_step tgood st g =
  let c := count_pwr st in
  let pwr := sampled_pwr g in
  let c2 := counter_after_branch c pwr in
  let t2 := if PrimFloat.ltb pwr 0%float then temp st
            else if in_episode c then
              PrimFloat.add (temp st)
                (PrimFloat.mul 0.8%float (float_of_int (c + 1)))
            else sampled_temp tgood g in
  let p2 := if PrimFloat.ltb pwr 0%float || in_episode c then 0%float
            else pwr in
  let acc := if is_zero (pwrc st) then sampled_reseed g
             else PrimFloat.add pwr (pwrc st) in
  let pc3 := if c2 =? NB_RECORDS_IMPACTED then 0%float else acc in
  (mkRow t2 (if c2 =? NB_RECORDS_IMPACTED then 1 else 0) p2 pc3,
   mkVars t2 (if c2 =? NB_RECORDS_IMPACTED then 0 else c2) pc3,
   if is_zero (pwrc st) then advance (advance (advance g))
   else advance (advance g)).
Proof.
  unfold sm_step, counter_after_branch, in_episode, sampled_pwr,
    sampled_temp, sampled_reseed, gauss.
  cbn [fst snd advance deviates integers cursor].
  destruct (is_zero (pwrc st));
    destruct (PrimFloat.ltb _ 0%float);
    destruct ((0 <? count_pwr st) && (count_pwr st <? NB_RECORDS_IMPACTED));
    cbn [orb];
    try destruct (count_pwr st + 1 =? NB_RECORDS_IMPACTED);
    try destruct (count_pwr st =? NB_RECORDS_IMPACTED);
    reflexivity.
Qed.

Lemma sm_row_at_closed tgood g i :
  sm_row_at tgood g i =
  let st := vars_at tgood g i in
  let gi := rng_at tgood g i in
  let c := count_pwr st in
  let pwr := sampled_pwr gi in
  let c2 := counter_after_branch c pwr in
  mkRow
    (if PrimFloat.ltb pwr 0%float then temp st
     else if in_episode c then
       PrimFloat.add (temp st)
         (PrimFloat.mul 0.8%float (float_of_int (c + 1)))
     else sampled_temp tgood gi)
    (if c2 =? NB_RECORDS_IMPACTED then 1 else 0)
    (if PrimFloat.ltb pwr 0%float || in_episode c then 0%float else pwr)
    (if c2 =? NB_RECORDS_IMPACTED then 0%float
     else if is_zero (pwrc st) then sampled_reseed gi
     else PrimFloat.add pwr (pwrc st)).
Proof.
  unfold sm_row_at, vars_at, rng_at.
  destruct (sm_at tgood g i) as [st gi].
  rewrite sm_step_closed. reflexivity.
Qed.

Lemma vars_at_succ tgood g i :
  vars_at tgood g (S i) =
  let row := sm_row_at tgood g i in
  let c2 := counter_after_branch (count_at tgood g i)
              (sampled_pwr (rng_at tgood g i)) in
  mkVars (new_temp row)
         (if c2 =? NB_RECORDS_IMPACTED then 0 else c2)
         (new_power_consumption row).
Proof.
  unfold vars_at, count_at, vars_at, rng_at, sm_row_at.
  rewrite sm_at_succ.
  destruct (sm_at tgood g i) as [st gi].
  rewrite sm_step_closed. reflexivity.
Qed.

Lemma rng_at_succ tgood g i :
  rng_at tgood g (S i) =
  let gi := rng_at tgood g i in
  if is_zero (pwrc (vars_at tgood g i)) then advance (advance (advance gi))
  else advance (advance gi).
Proof.
  unfold vars_at, rng_at. rewrite sm_at_succ.
  destruct (sm_at tgood g i) as [st gi].
  rewrite sm_step_closed. reflexivity.
Qed.

Lemma count_at_succ tgood g i :
  count_at tgood g (S i) =
  let c2 := counter_after_branch (count_at tgood g i)
              (sampled_pwr (rng_at tgood g i)) in
  if c2 =? NB_RECORDS_IMPACTED then 0 else c2.
Proof.
  unfold count_at at 1. rewrite vars_at_succ. reflexivity.
Qed.

Lemma vars_at_0 tgood g :
  vars_at tgood g 0 = mkVars (fst (gauss tgood 3.0%float g)) 0 0%float.
Proof. reflexivity. Qed.

Lemma counter_after_branch_cases c pwr :
  (counter_after_branch c pwr = c + 1 /\
   (PrimFloat.ltb pwr 0%float || in_episode c) = true) \/
  (counter_after_branch c pwr = c /\
   (PrimFloat.ltb pwr 0%float || in_episode c) = false).
Proof.
  unfold counter_after_branch, in_episode.
  destruct (PrimFloat.ltb pwr 0%float); cbn [orb]; [left; auto|].
  destruct ((0 <? c) && (c <? NB_RECORDS_IMPACTED)); [left|right]; auto.
Qed.

(** The counter is between 0 and 6 at the top of every iteration. *)
Lemma count_at_range tgood g i : 0 <= count_at tgood g i <= 6.
Proof.
  induction i as [|i IH].
  - unfold count_at. rewrite vars_at_0. simpl. lia.
  - rewrite count_at_succ. cbv zeta.
    destruct (counter_after_branch_cases (count_at tgood g i)
                (sampled_pwr (rng_at tgood g i))) as [[E _]|[E _]];
      rewrite E; unfold NB_RECORDS_IMPACTED;
      destruct (Z.eqb_spec (count_at tgood g i + 1) 7);
      destruct (Z.eqb_spec (count_at tgood g i) 7); lia.
Qed.

Lemma in_episode_pos c : 0 < c <= 6 -> in_episode c = true.
Proof.
  intros H. unfold in_episode, NB_RECORDS_IMPACTED.
  apply andb_true_intro. split; apply Z.ltb_lt; lia.
Qed.

(** A positive counter at the top of iteration [S i] means iteration [i]
    incremented it and zeroed the power. *)
Lemma count_pos_pred tgood g i :
  0 < count_at tgood g (S i) ->
  count_at tgood g (S i) = count_at tgood g i + 1 /\
  new_power (sm_row_at tgood g i) = 0%float /\
  new_maint_req (sm_row_at tgood g i) = 0.
Proof.
  rewrite count_at_succ, sm_row_at_closed. cbv zeta. cbn [new_power new_maint_req].
  fold (count_at tgood g i).
  pose proof (count_at_range tgood g i) as R.
  destruct (counter_after_branch_cases (count_at tgood g i)
              (sampled_pwr (rng_at tgood g i))) as [[E Hz]|[E Hz]];
    rewrite E, Hz; unfold NB_RECORDS_IMPACTED;
    destruct (Z.eqb_spec (count_at tgood g i + 1) 7);
    destruct (Z.eqb_spec (count_at tgood g i) 7); intros H; try lia; auto.
  all: exfalso; apply orb_false_elim in Hz; destruct Hz as [_ Hz];
    rewrite in_episode_pos in Hz by lia; discriminate.
Qed.

(** The [c] rows before a row entered with counter [c] all have power 0,
    and the counter was [c - k] at the top of the row [k] places back. *)
Lemma episode_rows_back tgood g : forall i k,
  (1 <= k)%nat -> Z.of_nat k <= count_at tgood g i ->
  (k <= i)%nat /\
  new_power (sm_row_at tgood g (i - k)) = 0%float /\
  new_maint_req (sm_row_at tgood g (i - k)) = 0 /\
  count_at tgood g (i - k) = count_at tgood g i - Z.of_nat k.
Proof.
  induction i as [|i IH]; intros k Hk Hc.
  - unfold count_at in Hc. rewrite vars_at_0 in Hc. simpl in Hc. lia.
  - destruct (count_pos_pred tgood g i) as (E & P & F); [lia|].
    destruct (Nat.eq_dec k 1) as [->|Hne].
    + replace (S i - 1)%nat with i by lia.
      repeat split; try lia; auto.
    + destruct (IH (k - 1)%nat) as (L & P' & F' & C'); [lia|lia|].
      replace (S i - k)%nat with (i - (k - 1))%nat by lia.
      repeat split; try lia; auto.
Qed.

(** ** The frames the generators build *)

Lemma draw_many_length {A} (draw : Rng -> A * Rng) n : forall g,
  List.length (fst (draw_many draw n g)) = n.
Proof.
  induction n as [|n IH]; intros g; simpl; [reflexivity|].
  destruct (draw g) as [x g1]. specialize (IH g1).
  destruct (draw_many draw n g1) as [xs g2]. simpl in *. now rewrite IH.
Qed.

Ltac destruct_draws :=
  match goal with
  | |- context [draw_many ?d ?k ?g] =>
      let H := fresh "L" in
      pose proof (draw_many_length d k g) as H;
      destruct (draw_many d k g) as [? ?];
      cbn [fst snd py_random np_random today] in *
  end.

Lemma stationary_cols_ok n cid ct tgood w :
  0 <= n ->
  exists ids cts tgoods o2 co2 door temps power defrost w1,
    _generateStationaryCols n cid ct tgood w =
      (Ok [ ("ID", StrCol ids);
            ("ContentType", IntCol cts);
            ("Target_Temperature(celsius)", FloatCol tgoods);
            ("O2", FloatCol o2);
            ("CO2", FloatCol co2);
            ("Time_Door_Open", FloatCol door);
            ("Temperature(celsius)", FloatCol temps);
            ("Power", FloatCol power);
            ("Defrost_Cycle", IntCol defrost) ], w1) /\
    py_random w1 = py_after_content_type ct (py_random w) /\
    today w1 = today w /\
    List.length ids = Z.to_nat n /\ List.length cts = Z.to_nat n /\
    List.length tgoods = Z.to_nat n /\ List.length o2 = Z.to_nat n /\
    List.length co2 = Z.to_nat n /\ List.length door = Z.to_nat n /\
    List.length temps = Z.to_nat n /\ List.length power = Z.to_nat n /\
    List.length defrost = Z.to_nat n.
Proof.
  intros Hn. apply Z.ltb_ge in Hn.
  unfold _generateStationaryCols, bind, np_repeat, np_random_normal,
    np_random_randint, with_np, with_py, ret, raise.
  rewrite Hn.
  destruct ct as [c|]; cbn [randint fst snd py_random np_random today];
    repeat destruct_draws;
    do 10 eexists; (split; [reflexivity|]);
    cbn [py_random today py_after_content_type];
    rewrite ?repeat_length; repeat split; auto.
Qed.

Lemma stationary_cols_negative n cid ct tgood w :
  n < 0 ->
  exists w1,
    _generateStationaryCols n cid ct tgood w = (Raise ValueError, w1) /\
    py_random w1 = py_after_content_type ct (py_random w) /\
    np_random w1 = np_random w /\ today w1 = today w.
Proof.
  intros Hn. apply Z.ltb_lt in Hn.
  unfold _generateStationaryCols, bind, np_repeat, with_py, ret, raise.
  rewrite Hn.
  destruct ct as [c|]; cbn [randint fst snd py_random np_random today];
    eexists; (split; [reflexivity|]); cbn; auto.
Qed.

Lemma df_setitem_ok name c k c0 rest w :
  col_length c = col_length c0 ->
  df_setitem name c ((k, c0) :: rest) w =
  (Ok (df_put name c ((k, c0) :: rest)), w).
Proof.
  intros E. unfold df_setitem. rewrite E, Nat.eqb_refl. reflexivity.
Qed.

Lemma timestamps_ok n start w :
  0 <= n ->
  exists ts, _generateTimestamps n start w = (Ok ts, w) /\
             List.length ts = Z.to_nat n.
Proof.
  intros Hn. apply Z.ltb_ge in Hn.
  unfold _generateTimestamps, bind, pd_date_range, datetime_today, ret.
  destruct start; rewrite Hn; eexists; (split; [reflexivity|]);
    now rewrite length_map, length_seq.
Qed.

Lemma simulatePowerOff_ok n tgood w :
  0 <= n ->
  _simulatePowerOff n tgood w =
  (Ok (sm_columns (fst (sm_run tgood (Z.to_nat n) (py_random w)))),
   mkWorld (snd (sm_run tgood (Z.to_nat n) (py_random w)))
           (np_random w) (today w)).
Proof.
  intros Hn. apply Z.ltb_ge in Hn.
  unfold _simulatePowerOff, with_py. rewrite Hn.
  destruct (sm_run tgood (Z.to_nat n) (py_random w)). reflexivity.
Qed.

(** Runs the frame operations on the concrete column names. *)
Ltac run_frame :=
  cbv beta iota zeta delta
    [bind ret df_getitem copy_columns df_select COLUMN_ORDER sm_columns
     df_lookup df_put floats_of String.eqb Ascii.eqb Bool.eqb].

Lemma generatePowerOff_ok cid n tgood ct start w :
  0 <= n ->
  let rows := fst (sm_run tgood (Z.to_nat n)
                     (py_after_content_type ct (py_random w))) in
  exists ts ids tgoods cts o2 co2 door defrost w1,
    generatePowerOff cid n tgood ct start w =
      (Ok [ ("Timestamp", TimeCol ts);
            ("ID", StrCol ids);
            ("Temperature(celsius)", FloatCol (map new_temp rows));
            ("Target_Temperature(celsius)", FloatCol tgoods);
            ("Power", FloatCol (map new_power rows));
            ("PowerConsumption", FloatCol (map new_power_consumption rows));
            ("ContentType", IntCol cts);
            ("O2", FloatCol o2);
            ("CO2", FloatCol co2);
            ("Time_Door_Open", FloatCol door);
            ("Maintenance_Required", IntCol (map new_maint_req rows));
            ("Defrost_Cycle", IntCol defrost) ], w1) /\
    List.length ts = Z.to_nat n /\ List.length ids = Z.to_nat n /\
    List.length tgoods = Z.to_nat n /\ List.length cts = Z.to_nat n /\
    List.length o2 = Z.to_nat n /\ List.length co2 = Z.to_nat n /\
    List.length door = Z.to_nat n /\ List.length defrost = Z.to_nat n /\
    List.length rows = Z.to_nat n.
Proof.
  intros Hn rows.
  destruct (stationary_cols_ok n cid ct tgood w Hn)
    as (ids & cts & tgoods & o2 & co2 & door & temps & power & defrost & w1
        & E & Hpy & Htoday & L1 & L2 & L3 & L4 & L5 & L6 & L7 & L8 & L9).
  destruct (timestamps_ok n start w1 Hn) as (ts & Ets & Lts).
  assert (Lrows : List.length rows = Z.to_nat n) by apply sm_run_length.
  exists ts, ids, tgoods, cts, o2, co2, door, defrost.
  unfold generatePowerOff, bind. rewrite E, Ets.
  rewrite df_setitem_ok by (cbn [col_length]; congruence).
  rewrite simulatePowerOff_ok by exact Hn. rewrite Hpy. fold rows.
  clearbody rows.
  repeat (progress (run_frame;
    rewrite ?df_setitem_ok
      by (cbn [col_length]; rewrite ?length_map; congruence))).
  eexists. split; [reflexivity|]. repeat split; assumption.
Qed.

Lemma cumsum_from_length v : forall acc,
  List.length (cumsum_from acc v) = List.length v.
Proof.
  induction v as [|x v IH]; intros acc; simpl; [reflexivity|].
  destruct (PrimFloat.is_nan x); simpl; now rewrite IH.
Qed.

Lemma cumsum_length v : List.length (cumsum v) = List.length v.
Proof.
  induction v as [|x v IH]; simpl; [reflexivity|].
  destruct (PrimFloat.is_nan x); simpl;
    [now rewrite IH | now rewrite cumsum_from_length].
Qed.

Lemma generateCo2_ok cid n tgood ct start w :
  0 <= n ->
  exists ts ids temps tgoods power cts o2 co2 door defrost w1,
    generateCo2 cid n tgood ct start w =
      (Ok [ ("Timestamp", TimeCol ts);
            ("ID", StrCol ids);
            ("Temperature(celsius)", FloatCol temps);
            ("Target_Temperature(celsius)", FloatCol tgoods);
            ("Power", FloatCol power);
            ("PowerConsumption", FloatCol (cumsum power));
            ("ContentType", IntCol cts);
            ("O2", FloatCol o2);
            ("CO2", FloatCol co2);
            ("Time_Door_Open", FloatCol door);
            ("Maintenance_Required", IntCol (map co2_flag co2));
            ("Defrost_Cycle", IntCol defrost) ], w1) /\
    List.length ts = Z.to_nat n /\ List.length ids = Z.to_nat n /\
    List.length temps = Z.to_nat n /\ List.length tgoods = Z.to_nat n /\
    List.length power = Z.to_nat n /\ List.length cts = Z.to_nat n /\
    List.length o2 = Z.to_nat n /\ List.length co2 = Z.to_nat n /\
    List.length door = Z.to_nat n /\ List.length defrost = Z.to_nat n.
Proof.
  intros Hn.
  destruct (stationary_cols_ok n cid ct tgood w Hn)
    as (ids & cts & tgoods & o2 & co2 & door & temps & power & defrost & w1
        & E & Hpy & Htoday & L1 & L2 & L3 & L4 & L5 & L6 & L7 & L8 & L9).
  destruct (timestamps_ok n start w1 Hn) as (ts & Ets & Lts).
  exists ts, ids, temps, tgoods, power, cts, o2, co2, door, defrost.
  unfold generateCo2, bind. rewrite E, Ets.
  rewrite df_setitem_ok by (cbn [col_length]; congruence).
  repeat (progress (run_frame;
    rewrite ?df_setitem_ok
      by (cbn [col_length]; rewrite ?length_map, ?cumsum_length;
          congruence))).
  eexists. split; [reflexivity|]. repeat split; assumption.
Qed.

Lemma generatePowerOff_negative cid n tgood ct start w :
  n < 0 ->
  exists w1,
    generatePowerOff cid n tgood ct start w = (Raise ValueError, w1) /\
    py_random w1 = py_after_content_type ct (py_random w) /\
    np_random w1 = np_random w.
Proof.
  intros Hn.
  destruct (stationary_cols_negative n cid ct tgood w Hn)
    as (w1 & E & Hpy & Hnp & _).
  exists w1. unfold generatePowerOff, bind. rewrite E. auto.
Qed.

Lemma generateCo2_negative cid n tgood ct start w :
  n < 0 ->
  exists w1,
    generateCo2 cid n tgood ct start w = (Raise ValueError, w1) /\
    py_random w1 = py_after_content_type ct (py_random w) /\
    np_random w1 = np_random w.
Proof.
  intros Hn.
  destruct (stationary_cols_negative n cid ct tgood w Hn)
    as (w1 & E & Hpy & Hnp & _).
  exists w1. unfold generateCo2, bind. rewrite E. auto.
Qed.

(** What a returned power-loss frame holds: the four state-machine
    columns are the rows of the run started after the content type was
    chosen. *)
Lemma power_off_frame cid n tgood ct start w df w' :
  generatePowerOff cid n tgood ct start w = (Ok df, w') ->
  let rows := fst (sm_run tgood (Z.to_nat n)
                     (py_after_content_type ct (py_random w))) in
  0 <= n /\
  map fst df = COLUMN_ORDER /\
  df_lookup "Temperature(celsius)" df = Some (FloatCol (map new_temp rows)) /\
  df_lookup "Power" df = Some (FloatCol (map new_power rows)) /\
  df_lookup "PowerConsumption" df =
    Some (FloatCol (map new_power_consumption rows)) /\
  df_lookup "Maintenance_Required" df =
    Some (IntCol (map new_maint_req rows)).
Proof.
  intros H rows.
  destruct (Z.lt_ge_cases n 0) as [Hn|Hn].
  - destruct (generatePowerOff_negative cid n tgood ct start w Hn)
      as (w1 & E & _). congruence.
  - destruct (generatePowerOff_ok cid n tgood ct start w Hn)
      as (ts & ids & tgoods & cts & o2 & co2 & door & defrost & w1 & E & _).
    rewrite E in H. injection H as <- _.
    repeat split; auto.
Qed.

Lemma co2_frame cid n tgood ct start w df w' :
  generateCo2 cid n tgood ct start w = (Ok df, w') ->
  0 <= n /\
  map fst df = COLUMN_ORDER /\
  exists power co2,
    List.length power = Z.to_nat n /\ List.length co2 = Z.to_nat n /\
    df_lookup "Power" df = Some (FloatCol power) /\
    df_lookup "PowerConsumption" df = Some (FloatCol (cumsum power)) /\
    df_lookup "CO2" df = Some (FloatCol co2) /\
    df_lookup "Maintenance_Required" df = Some (IntCol (map co2_flag co2)).
Proof.
  intros H.
  destruct (Z.lt_ge_cases n 0) as [Hn|Hn].
  - destruct (generateCo2_negative cid n tgood ct start w Hn)
      as (w1 & E & _). congruence.
  - destruct (generateCo2_ok cid n tgood ct start w Hn)
      as (ts & ids & temps & tgoods & power & cts & o2 & co2 & door
          & defrost & w1 & E & L).
    rewrite E in H. injection H as <- _.
    repeat split; auto.
    exists power, co2. repeat split; auto; apply L.
Qed.

(** ** The power-off state machine, row by row *)

Lemma in_episode_spec c : in_episode c = true <-> 0 < c < 7.
Proof.
  unfold in_episode, NB_RECORDS_IMPACTED.
  rewrite andb_true_iff, !Z.ltb_lt. tauto.
Qed.

Lemma run_column_nth {A} (f : sm_row -> A) (d : A) tgood nb g j :
  (j < nb)%nat ->
  nth j (map f (fst (sm_run tgood nb g))) d = f (sm_row_at tgood g j).
Proof.
  intros Hj. apply nth_error_nth.
  rewrite nth_error_map, (sm_run_nth _ _ _ _ Hj). reflexivity.
Qed.

Lemma temp_at_previous tgood nb g i :
  (i < nb)%nat ->
  temp (vars_at tgood g i) = previous_temp tgood g (fst (sm_run tgood nb g)) i.
Proof.
  intros Hi. destruct i as [|j]; [reflexivity|].
  rewrite vars_at_succ. cbn [temp previous_temp].
  rewrite run_column_nth by lia. reflexivity.
Qed.

Lemma pwrc_at_previous tgood nb g i :
  (i < nb)%nat ->
  pwrc (vars_at tgood g i) = previous_pwrc (fst (sm_run tgood nb g)) i.
Proof.
  intros Hi. destruct i as [|j]; [reflexivity|].
  rewrite vars_at_succ. cbn [pwrc previous_pwrc].
  rewrite run_column_nth by lia. reflexivity.
Qed.

(** C1. Every row of every run of the power-off state machine follows
    the branch of lines 118-126: a negative sampled power draw gives
    Power 0, the previous temperature, and the counter incremented by 1;
    otherwise a counter [c] with [0 < c < 7] gives Power 0, the counter
    incremented, and the previous temperature plus 0.8 times the
    incremented counter; otherwise Temperature and Power are the sampled
    values.  The incremented counter is the one line 127 tests: it is
    carried to the next row unless it has reached 7. *)
Theorem power_off_row_branches tgood g nb i row :
  let rows := fst (sm_run tgood nb g) in
  nth_error rows i = Some row ->
  let c := count_at tgood g i in
  let gi := rng_at tgood g i in
  let pwr := sampled_pwr gi in
  let prev := previous_temp tgood g rows i in
  (PrimFloat.ltb pwr 0%float = true ->
     new_power row = 0%float /\
     new_temp row = prev /\
     counter_after_branch c pwr = c + 1) /\
  (PrimFloat.ltb pwr 0%float = false -> 0 < c < 7 ->
     new_power row = 0%float /\
     new_temp row =
       PrimFloat.add prev (PrimFloat.mul 0.8%float (float_of_int (c + 1))) /\
     counter_after_branch c pwr = c + 1) /\
  (PrimFloat.ltb pwr 0%float = false -> ~ (0 < c < 7) ->
     new_power row = pwr /\
     new_temp row = sampled_temp tgood gi /\
     counter_after_branch c pwr = c) /\
  count_at tgood g (S i) =
    (if counter_after_branch c pwr =? 7 then 0
     else counter_after_branch c pwr).
Proof.
  intros rows H c gi pwr prev.
  apply sm_run_row in H. destruct H as [Hi ->].
  pose proof (temp_at_previous tgood nb g i Hi) as Ht.
  fold rows in Ht. fold prev in Ht.
  rewrite sm_row_at_closed, count_at_succ. cbv zeta.
  fold (count_at tgood g i). fold c. fold gi. fold pwr.
  cbn [new_power new_temp]. rewrite Ht.
  unfold counter_after_branch. fold (in_episode c).
  repeat split.
  - rewrite H. reflexivity.
  - rewrite H. reflexivity.
  - rewrite H. reflexivity.
  - rewrite H. apply in_episode_spec in H0. rewrite H0, orb_true_r. reflexivity.
  - rewrite H. apply in_episode_spec in H0. rewrite H0. reflexivity.
  - rewrite H. apply in_episode_spec in H0. rewrite H0. reflexivity.
  - rewrite H. destruct (in_episode c) eqn:E; [|reflexivity].
    apply in_episode_spec in E. contradiction.
  - rewrite H. destruct (in_episode c) eqn:E; [|reflexivity].
    apply in_episode_spec in E. contradiction.
  - rewrite H. destruct (in_episode c) eqn:E; [|reflexivity].
    apply in_episode_spec in E. contradiction.
Qed.

Lemma power_off_row_branches_witness :
  let g := tape_rng mixed_tape in
  let row := sm_row_at 4.4%float g 1 in
  new_power row = 0%float /\
  new_temp row = new_temp (sm_row_at 4.4%float g 0) /\
  count_at 4.4%float g 2 = 1.
Proof.
  intros g row.
  destruct (power_off_row_branches 4.4%float g 10 1 row eq_refl)
    as (B1 & _ & _ & Hc).
  destruct (B1 eq_refl) as (P & T & C).
  split; [exact P|]. split; [exact T|].
  rewrite Hc, C. reflexivity.
Defined.

(** C6. On every row the accumulator is updated before the branch: a zero
    accumulator is reseeded with a fresh draw from N(7.2, 10) (one more
    call to the generator), any other value becomes [pwr + pwrc] with the
    sampled, not yet zeroed, power draw.  The row stores that value, or 0
    when the row is flagged, and the stored value is carried on. *)
Theorem consumption_recurrence tgood g nb i row :
  let rows := fst (sm_run tgood nb g) in
  nth_error rows i = Some row ->
  let gi := rng_at tgood g i in
  let prev := previous_pwrc rows i in
  let updated :=
    if is_zero prev then sampled_reseed gi
    else PrimFloat.add (sampled_pwr gi) prev in
  new_power_consumption row =
    (if new_maint_req row =? 1 then 0%float else updated) /\
  pwrc (vars_at tgood g (S i)) = new_power_consumption row /\
  cursor (rng_at tgood g (S i)) =
    (cursor gi + (if is_zero prev then 3 else 2))%nat.
Proof.
  intros rows H gi prev updated.
  apply sm_run_row in H. destruct H as [Hi ->].
  pose proof (pwrc_at_previous tgood nb g i Hi) as Hp.
  fold rows in Hp. fold prev in Hp.
  rewrite vars_at_succ, rng_at_succ. cbv zeta. cbn [pwrc].
  rewrite sm_row_at_closed. cbv zeta.
  cbn [new_power_consumption new_maint_req].
  rewrite Hp. fold gi. unfold updated.
  repeat split.
  - destruct (_ =? NB_RECORDS_IMPACTED); reflexivity.
  - destruct (is_zero prev); cbn [advance cursor]; lia.
Qed.

Lemma consumption_recurrence_witness :
  let g := tape_rng mixed_tape in
  new_power_consumption (sm_row_at 4.4%float g 2) =
    PrimFloat.add (sampled_pwr (rng_at 4.4%float g 2))
      (new_power_consumption (sm_row_at 4.4%float g 1)) /\
  new_power_consumption (sm_row_at 4.4%float g 7) = 0%float.
Proof.
  intros g. split.
  - exact (proj1 (consumption_recurrence 4.4%float g 10 2
                    (sm_row_at 4.4%float g 2) eq_refl)).
  - exact (proj1 (consumption_recurrence 4.4%float g 10 7
                    (sm_row_at 4.4%float g 7) eq_refl)).
Defined.

(** ** Flagged rows *)

Lemma flag_values tgood g i :
  let reached := counter_after_branch (count_at tgood g i)
                   (sampled_pwr (rng_at tgood g i)) in
  (new_maint_req (sm_row_at tgood g i) = 1 <-> reached = 7) /\
  (reached <> 7 -> new_maint_req (sm_row_at tgood g i) = 0).
Proof.
  rewrite sm_row_at_closed. cbv zeta. cbn [new_maint_req].
  fold (count_at tgood g i). unfold NB_RECORDS_IMPACTED.
  destruct (Z.eqb_spec
              (counter_after_branch (count_at tgood g i)
                 (sampled_pwr (rng_at tgood g i))) 7) as [E|E].
  - split; [tauto | contradiction].
  - split; [split; [discriminate | contradiction] | reflexivity].
Qed.

Lemma flagged_row tgood g i :
  new_maint_req (sm_row_at tgood g i) = 1 ->
  new_power (sm_row_at tgood g i) = 0%float /\
  new_power_consumption (sm_row_at tgood g i) = 0%float /\
  count_at tgood g i = 6 /\
  count_at tgood g (S i) = 0 /\
  pwrc (vars_at tgood g (S i)) = 0%float.
Proof.
  intros F. apply (proj1 (flag_values tgood g i)) in F.
  pose proof (count_at_range tgood g i) as R.
  rewrite vars_at_succ, count_at_succ, sm_row_at_closed. cbv zeta.
  fold (count_at tgood g i). cbn [new_power new_power_consumption pwrc].
  rewrite F. cbn [Z.eqb NB_RECORDS_IMPACTED Pos.eqb].
  destruct (counter_after_branch_cases (count_at tgood g i)
              (sampled_pwr (rng_at tgood g i))) as [[E Hz]|[E Hz]].
  - rewrite Hz. repeat split; lia.
  - lia.
Qed.

Lemma run_column_row {A} (f : sm_row -> A) tgood nb g i v :
  nth_error (map f (fst (sm_run tgood nb g))) i = Some v ->
  (i < nb)%nat /\ v = f (sm_row_at tgood g i).
Proof.
  rewrite nth_error_map.
  destruct (nth_error (fst (sm_run tgood nb g)) i) as [row|] eqn:E;
    [|discriminate].
  apply sm_run_row in E. destruct E as [Hi ->].
  cbn. intros [= <-]. auto.
Qed.

Lemma run_column_at {A} (f : sm_row -> A) tgood nb g i :
  (i < nb)%nat ->
  nth_error (map f (fst (sm_run tgood nb g))) i =
  Some (f (sm_row_at tgood g i)).
Proof.
  intros Hi. rewrite nth_error_map, (sm_run_nth _ _ _ _ Hi). reflexivity.
Qed.

Lemma zero_run_back_ge v : forall m i,
  (m <= i)%nat ->
  (forall k, (k <= m)%nat ->
     exists x, nth_error v (i - k) = Some x /\ is_zero x = true) ->
  (S m <= zero_run_back v i)%nat.
Proof.
  induction m as [|m IH]; intros i Hm Hz.
  - destruct (Hz 0%nat) as (x & Ex & Zx); [lia|].
    rewrite Nat.sub_0_r in Ex.
    destruct i; simpl; simpl in Ex; rewrite Ex, Zx; lia.
  - destruct i as [|j]; [lia|].
    destruct (Hz 0%nat) as (x & Ex & Zx); [lia|].
    rewrite Nat.sub_0_r in Ex.
    assert (S m <= zero_run_back v j)%nat as Hj.
    { apply IH; [lia|]. intros k Hk.
      destruct (Hz (S k)) as (y & Ey & Zy); [lia|].
      exists y. split; [|exact Zy].
      replace (j - k)%nat with (S j - S k)%nat by lia. exact Ey. }
    change (zero_run_back v (S j)) with
      (match nth_error v (S j) with
       | Some x => if is_zero x then S (zero_run_back v j) else O
       | None => O
       end).
    rewrite Ex, Zx. lia.
Qed.

(** C10. In every power-loss Dataset a row flagged for maintenance has
    Power 0 and PowerConsumption 0: the reset of lines 129-131 happens
    before the row is stored. *)
Theorem flagged_row_power_reset cid n tgood ct start w df w' mr pw pc i :
  generatePowerOff cid n tgood ct start w = (Ok df, w') ->
  df_lookup "Maintenance_Required" df = Some (IntCol mr) ->
  df_lookup "Power" df = Some (FloatCol pw) ->
  df_lookup "PowerConsumption" df = Some (FloatCol pc) ->
  nth_error mr i = Some 1 ->
  nth_error pw i = Some 0%float /\ nth_error pc i = Some 0%float.
Proof.
  intros H Hm Hp Hc Hi.
  apply power_off_frame in H. cbv zeta in H.
  destruct H as (Hn & _ & _ & Ep & Ec & Em).
  rewrite Em in Hm. injection Hm as <-.
  rewrite Ep in Hp. injection Hp as <-.
  rewrite Ec in Hc. injection Hc as <-.
  apply run_column_row in Hi. destruct Hi as [Hlt F].
  symmetry in F. apply flagged_row in F. destruct F as (P & C & _).
  rewrite !run_column_at by exact Hlt. rewrite P, C. auto.
Qed.

Lemma flagged_row_power_reset_witness :
  exists df w' mr pw pc,
    generatePowerOff "101" 10 4.4%float (Some 2) (Some 0) mixed_world
      = (Ok df, w') /\
    df_lookup "Maintenance_Required" df = Some (IntCol mr) /\
    nth_error mr 7 = Some 1 /\
    df_lookup "Power" df = Some (FloatCol pw) /\
    df_lookup "PowerConsumption" df = Some (FloatCol pc) /\
    nth_error pw 7 = Some 0%float /\ nth_error pc 7 = Some 0%float.
Proof.
  destruct (generatePowerOff_ok "101" 10 4.4%float (Some 2) (Some 0)
              mixed_world ltac:(lia))
    as (ts & ids & tgoods & cts & o2 & co2 & door & defrost & w1 & E & _).
  cbv zeta in E.
  eexists _, w1, _, _, _.
  split; [exact E|].
  split; [reflexivity|].
  split; [vm_compute; reflexivity|].
  split; [reflexivity|].
  split; [reflexivity|].
  eapply flagged_row_power_reset;
    [exact E | reflexivity | reflexivity | reflexivity
     | vm_compute; reflexivity].
Defined.

(** ** Episodes *)

(** C4, as the code has it.  At the top of every row the run counter is
    between 0 and 6, so the rows counted into one episode are at most 7.
    A row entered with a positive counter [c] has Power 0 and follows [c]
    rows of Power 0, the first of which was entered with the counter
    at 0.  A row with Power 0 is one of those, or the first row of an
    episode, or a row whose sampled power draw was itself zero.  Nothing
    bounds a run of zero-power rows, because an episode may begin on the
    row after the previous one ended. *)
Theorem episodes_contiguous_and_bounded
    cid n tgood ct start w df w' pw i x :
  generatePowerOff cid n tgood ct start w = (Ok df, w') ->
  df_lookup "Power" df = Some (FloatCol pw) ->
  nth_error pw i = Some x ->
  let g := py_after_content_type ct (py_random w) in
  let c := count_at tgood g i in
  let pwr := sampled_pwr (rng_at tgood g i) in
  0 <= c <= 6 /\
  (0 < c ->
     x = 0%float /\
     (Z.to_nat c <= i)%nat /\
     count_at tgood g (i - Z.to_nat c) = 0 /\
     forall k, (1 <= k <= Z.to_nat c)%nat ->
       nth_error pw (i - k) = Some 0%float) /\
  (is_zero x = true ->
     0 < c \/ PrimFloat.ltb pwr 0%float = true \/ is_zero pwr = true).
Proof.
  intros H Hp Hx g c pwr.
  apply power_off_frame in H. cbv zeta in H.
  destruct H as (Hn & _ & _ & Ep & _ & _).
  rewrite Ep in Hp. injection Hp as <-.
  apply run_column_row in Hx. destruct Hx as [Hi ->]. fold g in Hi.
  pose proof (count_at_range tgood g i) as R. fold c in R.
  split; [exact R|]. split.
  - intros Hc.
    assert (Hx : new_power (sm_row_at tgood g i) = 0%float).
    { rewrite sm_row_at_closed. cbv zeta. cbn [new_power].
      fold (count_at tgood g i). fold c.
      rewrite (in_episode_pos c) by lia. now rewrite orb_true_r. }
    destruct (episode_rows_back tgood g i (Z.to_nat c)) as (L & _ & _ & C0).
    { lia. } { fold c. lia. }
    fold c in C0.
    repeat split; [exact Hx | exact L | rewrite C0; lia |].
    intros k Hk.
    destruct (episode_rows_back tgood g i k) as (Lk & Pk & _).
    { lia. } { fold c. lia. }
    fold g. rewrite run_column_at by lia. now rewrite Pk.
  - rewrite sm_row_at_closed. cbv zeta. cbn [new_power].
    fold g. fold (count_at tgood g i). fold c. fold pwr.
    destruct (PrimFloat.ltb pwr 0%float) eqn:El; [auto|].
    destruct (in_episode c) eqn:Ee; cbn [orb].
    + apply in_episode_spec in Ee. left. lia.
    + auto.
Qed.

Lemma episodes_contiguous_and_bounded_witness :
  exists df w' pw,
    generatePowerOff "101" 10 4.4%float (Some 2) (Some 0) mixed_world
      = (Ok df, w') /\
    df_lookup "Power" df = Some (FloatCol pw) /\
    count_at 4.4%float (tape_rng mixed_tape) 4 = 3 /\
    nth_error pw 4 = Some 0%float /\
    nth_error pw 3 = Some 0%float /\
    nth_error pw 2 = Some 0%float /\
    nth_error pw 1 = Some 0%float /\
    count_at 4.4%float (tape_rng mixed_tape) 1 = 0.
Proof.
  destruct (generatePowerOff_ok "101" 10 4.4%float (Some 2) (Some 0)
              mixed_world ltac:(lia))
    as (ts & ids & tgoods & cts & o2 & co2 & door & defrost & w1 & E & _).
  cbv zeta in E.
  eexists _, w1, _.
  split; [exact E|].
  split; [reflexivity|].
  split; [vm_compute; reflexivity|].
  split; [vm_compute; reflexivity|].
  destruct (episodes_contiguous_and_bounded "101" 10 4.4%float (Some 2)
              (Some 0) mixed_world _ w1 _ 4 0%float E eq_refl)
    as (_ & B & _); [vm_compute; reflexivity|].
  destruct B as (_ & _ & C0 & Back); [vm_compute; reflexivity|].
  split; [apply (Back 1%nat); vm_compute; lia|].
  split; [apply (Back 2%nat); vm_compute; lia|].
  split; [apply (Back 3%nat); vm_compute; lia|].
  exact C0.
Defined.

(** C4, as stated, fails: with two negative power draws, one on row 1 and
    one on row 8 (right after the flagged row 7), rows 1 to 8 all have
    Power 0, a run of 8. *)
Lemma zero_run_longer_than_7 :
  ~ (forall cid n tgood ct start w df w' pw,
       generatePowerOff cid n tgood ct start w = (Ok df, w') ->
       df_lookup "Power" df = Some (FloatCol pw) ->
       (longest_zero_run pw <= 7)%nat).
Proof.
  intros H.
  destruct (generatePowerOff_ok "101" 9 4.4%float (Some 2) (Some 0)
              adjacent_world ltac:(lia))
    as (ts & ids & tgoods & cts & o2 & co2 & door & defrost & w1 & E & _).
  cbv zeta in E.
  specialize (H _ _ _ _ _ _ _ _ _ E eq_refl).
  vm_compute in H. lia.
Qed.

(** C5, as the code has it.  A row is flagged exactly when the counter
    reaches 7 on it, and every other row carries the flag 0; on a flagged
    row the counter and the accumulator are reset to 0, and the flagged
    row and the six rows before it have Power 0, so the run of
    zero-power rows ending at a flagged row has length at least 7. *)
Theorem flag_when_counter_reaches_seven
    cid n tgood ct start w df w' mr pw i :
  generatePowerOff cid n tgood ct start w = (Ok df, w') ->
  df_lookup "Maintenance_Required" df = Some (IntCol mr) ->
  df_lookup "Power" df = Some (FloatCol pw) ->
  (i < List.length mr)%nat ->
  let g := py_after_content_type ct (py_random w) in
  let reached :=
    counter_after_branch (count_at tgood g i)
      (sampled_pwr (rng_at tgood g i)) in
  (nth_error mr i = Some 1 <-> reached = 7) /\
  (reached <> 7 -> nth_error mr i = Some 0) /\
  (nth_error mr i = Some 1 ->
     count_at tgood g (S i) = 0 /\
     pwrc (vars_at tgood g (S i)) = 0%float /\
     (6 <= i)%nat /\
     (forall k, (k <= 6)%nat -> nth_error pw (i - k) = Some 0%float) /\
     (7 <= zero_run_back pw i)%nat).
Proof.
  intros H Hm Hp Hi g reached.
  apply power_off_frame in H. cbv zeta in H.
  destruct H as (Hn & _ & _ & Ep & _ & Em).
  rewrite Em in Hm. injection Hm as <-.
  rewrite Ep in Hp. injection Hp as <-.
  rewrite length_map, sm_run_length in Hi. fold g.
  rewrite run_column_at by exact Hi.
  destruct (flag_values tgood g i) as [Fiff F0]. fold reached in Fiff, F0.
  assert (Back : new_maint_req (sm_row_at tgood g i) = 1 ->
                 (6 <= i)%nat /\
                 forall k, (k <= 6)%nat ->
                   nth_error (map new_power (fst (sm_run tgood (Z.to_nat n) g)))
                     (i - k) = Some 0%float).
  { intros F. destruct (flagged_row tgood g i F) as (P & _ & C6 & _).
    destruct (episode_rows_back tgood g i 6) as (L & _); [lia|lia|].
    split; [exact L|]. intros k Hk.
    rewrite run_column_at by lia. f_equal.
    destruct (Nat.eq_dec k 0) as [->|Hk0].
    - now rewrite Nat.sub_0_r.
    - destruct (episode_rows_back tgood g i k) as (_ & Pk & _);
        [lia|lia|exact Pk]. }
  split; [|split].
  - split.
    + intros [= F]. now apply Fiff.
    + intros R. f_equal. now apply Fiff.
  - intros R. f_equal. now apply F0.
  - intros [= F].
    destruct (flagged_row tgood g i F) as (_ & _ & _ & C0 & A0).
    destruct (Back F) as [L Z0].
    repeat split; auto.
    apply (zero_run_back_ge _ 6 i L).
    intros k Hk. exists 0%float. split; [now apply Z0 | reflexivity].
Qed.

Lemma flag_when_counter_reaches_seven_witness :
  exists df w' mr pw,
    generatePowerOff "101" 10 4.4%float (Some 2) (Some 0) mixed_world
      = (Ok df, w') /\
    df_lookup "Maintenance_Required" df = Some (IntCol mr) /\
    df_lookup "Power" df = Some (FloatCol pw) /\
    nth_error mr 7 = Some 1 /\
    (7 <= zero_run_back pw 7)%nat /\
    nth_error pw 1 = Some 0%float /\
    count_at 4.4%float (tape_rng mixed_tape) 8 = 0.
Proof.
  destruct (generatePowerOff_ok "101" 10 4.4%float (Some 2) (Some 0)
              mixed_world ltac:(lia))
    as (ts & ids & tgoods & cts & o2 & co2 & door & defrost & w1 & E & _).
  cbv zeta in E.
  eexists _, w1, _, _.
  split; [exact E|].
  split; [reflexivity|].
  split; [reflexivity|].
  assert (F : nth_error
                (map new_maint_req
                   (fst (sm_run 4.4%float (Z.to_nat 10)
                           (py_after_content_type (Some 2)
                              (py_random mixed_world))))) 7 = Some 1)
    by (vm_compute; reflexivity).
  split; [exact F|].
  destruct (flag_when_counter_reaches_seven "101" 10 4.4%float (Some 2)
              (Some 0) mixed_world _ w1 _ _ 7 E eq_refl eq_refl)
    as (_ & _ & B); [vm_compute; lia|].
  destruct (B F) as (C0 & _ & _ & Z0 & Run).
  split; [exact Run|].
  split; [exact (Z0 6%nat (le_n 6))|].
  exact C0.
Defined.

(** C5, as stated, fails: when a second episode starts on the row after a
    flagged row, the run of zero-power rows that ends at the second
    flagged row (row 14) is 14 rows long, not 7. *)
Lemma flagged_run_longer_than_7 :
  ~ (forall cid n tgood ct start w df w' mr pw i,
       generatePowerOff cid n tgood ct start w = (Ok df, w') ->
       df_lookup "Maintenance_Required" df = Some (IntCol mr) ->
       df_lookup "Power" df = Some (FloatCol pw) ->
       nth_error mr i = Some 1 ->
       zero_run_back pw i = 7%nat).
Proof.
  intros H.
  destruct (generatePowerOff_ok "101" 15 4.4%float (Some 2) (Some 0)
              adjacent_world ltac:(lia))
    as (ts & ids & tgoods & cts & o2 & co2 & door & defrost & w1 & E & _).
  cbv zeta in E.
  specialize (H _ _ _ _ _ _ _ _ _ _ 14%nat E eq_refl eq_refl).
  vm_compute in H. specialize (H eq_refl). discriminate H.
Qed.

(** ** The CO2 scenario *)

(** C2. In every CO2-fault Dataset, [Maintenance_Required[i]] is 1 exactly
    when [CO2[i] > 4] or [CO2[i] < 0], and 0 otherwise. *)
Theorem co2_maintenance_label cid n tgood ct start w df w' co2 mr i x :
  generateCo2 cid n tgood ct start w = (Ok df, w') ->
  df_lookup "CO2" df = Some (FloatCol co2) ->
  df_lookup "Maintenance_Required" df = Some (IntCol mr) ->
  nth_error co2 i = Some x ->
  exists m,
    nth_error mr i = Some m /\
    (m = 1 <->
       PrimFloat.ltb 4%float x = true \/ PrimFloat.ltb x 0%float = true) /\
    (m = 0 \/ m = 1).
Proof.
  intros H Hc Hm Hx.
  apply co2_frame in H.
  destruct H as (_ & _ & power & co2' & _ & _ & _ & _ & Ec & Em).
  rewrite Ec in Hc. injection Hc as <-.
  rewrite Em in Hm. injection Hm as <-.
  exists (co2_flag x). split.
  - rewrite nth_error_map, Hx. reflexivity.
  - unfold co2_flag. change (float_of_int CO2_LEVEL) with 4%float.
    destruct (PrimFloat.ltb 4%float x); destruct (PrimFloat.ltb x 0%float);
      cbn [orb]; split; try tauto; try (right; reflexivity);
      try (left; reflexivity);
      (split; [discriminate | intros [F|F]; discriminate F]).
Qed.

Lemma co2_maintenance_label_witness :
  exists df w' co2 mr,
    generateCo2 "101" 4 4.4%float (Some 2) (Some 0) mixed_world
      = (Ok df, w') /\
    df_lookup "CO2" df = Some (FloatCol co2) /\
    df_lookup "Maintenance_Required" df = Some (IntCol mr) /\
    nth_error co2 1 = Some (-2)%float /\
    exists m, nth_error mr 1 = Some m /\ m = 1.
Proof.
  destruct (generateCo2 "101" 4 4.4%float (Some 2) (Some 0) mixed_world)
    as [r w1] eqn:E.
  pose proof E as E'. vm_compute in E'. injection E' as <- _.
  eexists _, w1, _, _.
  split; [reflexivity|].
  split; [reflexivity|].
  split; [reflexivity|].
  split; [reflexivity|].
  destruct (co2_maintenance_label "101" 4 4.4%float (Some 2) (Some 0)
              mixed_world _ w1 _ _ 1 (-2)%float E eq_refl eq_refl eq_refl)
    as (m & Hm & Hiff & _).
  exists m. split; [exact Hm|].
  apply Hiff. right. reflexivity.
Defined.

Lemma firstn_snoc {A} (d : A) : forall v i,
  (i < List.length v)%nat ->
  firstn (S i) v = (firstn i v ++ [nth i v d])%list.
Proof.
  induction v as [|x v IH]; intros i Hi; simpl in Hi; [lia|].
  destruct i as [|i]; [reflexivity|].
  cbn [firstn nth app]. f_equal. apply IH. lia.
Qed.

Lemma sum_upto_fold x v : forall i,
  (i <= List.length v)%nat ->
  sum_upto (x :: v) i = fold_left PrimFloat.add (firstn i v) x.
Proof.
  induction i as [|i IH]; intros Hi; [reflexivity|].
  cbn [sum_upto nth]. rewrite IH by lia.
  rewrite (firstn_snoc 0%float) by lia.
  rewrite fold_left_app. reflexivity.
Qed.

Lemma cumsum_from_nth : forall v acc i,
  no_nan v -> (i < List.length v)%nat ->
  nth_error (cumsum_from acc v) i =
  Some (fold_left PrimFloat.add (firstn (S i) v) acc).
Proof.
  induction v as [|x v IH]; intros acc i Hv Hi; simpl in Hi; [lia|].
  inversion Hv as [|? ? Hx Hv']; subst.
  cbn [cumsum_from]. rewrite Hx.
  destruct i as [|i]; [reflexivity|].
  cbn [nth_error]. rewrite IH by (auto; lia). reflexivity.
Qed.

Lemma cumsum_nth v i :
  no_nan v -> (i < List.length v)%nat ->
  nth_error (cumsum v) i = Some (sum_upto v i).
Proof.
  intros Hv Hi. destruct v as [|x v]; simpl in Hi; [lia|].
  inversion Hv as [|? ? Hx Hv']; subst.
  cbn [cumsum]. rewrite Hx.
  destruct i as [|i]; [reflexivity|].
  cbn [nth_error]. rewrite cumsum_from_nth by (auto; lia).
  rewrite sum_upto_fold by lia. reflexivity.
Qed.

(** C7. In every CO2-fault Dataset, [PowerConsumption[i]] is
    [Power[0] + ... + Power[i]], the running sum of the Power column
    (whose entries, drawn from N(7.2, 6), are numbers, never NaN). *)
Theorem co2_consumption_running_sum cid n tgood ct start w df w' pw pc i :
  generateCo2 cid n tgood ct start w = (Ok df, w') ->
  df_lookup "Power" df = Some (FloatCol pw) ->
  df_lookup "PowerConsumption" df = Some (FloatCol pc) ->
  no_nan pw ->
  (i < List.length pw)%nat ->
  List.length pc = List.length pw /\
  nth_error pc i = Some (sum_upto pw i).
Proof.
  intros H Hp Hc Hnan Hi.
  apply co2_frame in H.
  destruct H as (_ & _ & power & co2 & _ & _ & Ep & Ec & _).
  rewrite Ep in Hp. injection Hp as <-.
  rewrite Ec in Hc. injection Hc as <-.
  split; [apply cumsum_length | now apply cumsum_nth].
Qed.

Lemma co2_consumption_running_sum_witness :
  exists df w' pw pc,
    generateCo2 "101" 4 4.4%float (Some 2) (Some 0) mixed_world
      = (Ok df, w') /\
    df_lookup "Power" df = Some (FloatCol pw) /\
    df_lookup "PowerConsumption" df = Some (FloatCol pc) /\
    nth_error pc 2 = Some (sum_upto pw 2).
Proof.
  destruct (generateCo2 "101" 4 4.4%float (Some 2) (Some 0) mixed_world)
    as [r w1] eqn:E.
  pose proof E as E'. vm_compute in E'. injection E' as <- _.
  eexists _, w1, _, _.
  split; [reflexivity|].
  split; [reflexivity|].
  split; [reflexivity|].
  apply (co2_consumption_running_sum "101" 4 4.4%float (Some 2) (Some 0)
           mixed_world _ w1 _ _ 2 E eq_refl eq_refl).
  - repeat constructor.
  - vm_compute. lia.
Defined.

(** ** Row counts that are not positive *)

Lemma length_0_nil {A} (l : list A) : List.length l = O -> l = [].
Proof. destruct l; [reflexivity | discriminate]. Qed.

(** C3, as the code has it.  A negative row count makes the tabular
    generators raise [ValueError], from the first array they build, after
    at most the draw of the content type: no row value has been drawn and
    no Dataset is returned.  A row count of 0 raises nothing: both
    generators return a Dataset with the canonical columns and no row. *)
Theorem nonpositive_row_count cid n tgood ct start w :
  (n < 0 ->
     exists w1 w2,
       generatePowerOff cid n tgood ct start w = (Raise ValueError, w1) /\
       generateCo2 cid n tgood ct start w = (Raise ValueError, w2) /\
       py_random w1 = py_after_content_type ct (py_random w) /\
       py_random w2 = py_after_content_type ct (py_random w) /\
       np_random w1 = np_random w /\ np_random w2 = np_random w) /\
  (n = 0 ->
     exists df1 w1 df2 w2,
       generatePowerOff cid n tgood ct start w = (Ok df1, w1) /\
       generateCo2 cid n tgood ct start w = (Ok df2, w2) /\
       map fst df1 = COLUMN_ORDER /\ map fst df2 = COLUMN_ORDER /\
       Forall (fun c => col_length (snd c) = O) df1 /\
       Forall (fun c => col_length (snd c) = O) df2 /\
       to_records df1 = [] /\ to_records df2 = []).
Proof.
  split.
  - intros Hn.
    destruct (generatePowerOff_negative cid n tgood ct start w Hn)
      as (w1 & E1 & P1 & N1).
    destruct (generateCo2_negative cid n tgood ct start w Hn)
      as (w2 & E2 & P2 & N2).
    exists w1, w2. auto 7.
  - intros ->.
    destruct (generatePowerOff_ok cid 0 tgood ct start w (Z.le_refl 0))
      as (ts & ids & tgoods & cts & o2 & co2 & door & defrost & w1 & E1
          & L1 & L2 & L3 & L4 & L5 & L6 & L7 & L8 & L9).
    destruct (generateCo2_ok cid 0 tgood ct start w (Z.le_refl 0))
      as (ts' & ids' & temps' & tgoods' & power' & cts' & o2' & co2' & door'
          & defrost' & w2 & E2
          & M1 & M2 & M3 & M4 & M5 & M6 & M7 & M8 & M9 & M10).
    cbv zeta in E1.
    change (Z.to_nat 0) with O in *.
    apply length_0_nil in L1, L2, L3, L4, L5, L6, L7, L8, L9.
    apply length_0_nil in M1, M2, M3, M4, M5, M6, M7, M8, M9, M10.
    subst. rewrite L9 in E1.
    eexists _, w1, _, w2.
    split; [exact E1|]. split; [exact E2|].
    repeat split; repeat constructor.
Qed.

Lemma nonpositive_row_count_witness :
  (exists w1,
     generatePowerOff "101" (-1) 4.4%float None None mixed_world
       = (Raise ValueError, w1)) /\
  (exists df w1,
     generateCo2 "101" 0 4.4%float None None mixed_world = (Ok df, w1) /\
     to_records df = []).
Proof.
  split.
  - destruct (nonpositive_row_count "101" (-1) 4.4%float None None
                mixed_world) as [Neg _].
    destruct (Neg ltac:(lia)) as (w1 & _ & E & _). exists w1. exact E.
  - destruct (nonpositive_row_count "101" 0 4.4%float None None
                mixed_world) as [_ Zero].
    destruct (Zero eq_refl) as (_ & _ & df2 & w2 & _ & E & _ & _ & _ & _ & _ & R).
    exists df2, w2. split; [exact E | exact R].
Defined.

(** C3, as stated, fails: a row count of 0 raises no error; the power-loss
    generator returns a Dataset. *)
Lemma zero_row_count_returns :
  ~ (forall cid n tgood ct start w,
       n <= 0 ->
       exists e w1, generatePowerOff cid n tgood ct start w = (Raise e, w1)).
Proof.
  intros H.
  destruct (H "101" 0 4.4%float None None mixed_world ltac:(lia))
    as (e & w1 & E).
  vm_compute in E. discriminate E.
Qed.

(** ** The tuple variants *)

(** C9. Both tuple variants evaluate a free name that no module-level
    definition binds, so every call raises [NameError] at once, whatever
    the arguments, with no draw made. *)
Theorem tuple_variants_raise_name_error cid n tgood ct start w :
  lookup_global "generatePowerOff" module_globals = None /\
  lookup_global "generateCo2" module_globals = None /\
  generatePowerOffTuples cid n tgood ct start w =
    (Raise (NameError "generatePowerOff"), w) /\
  generateCo2Tuples cid n tgood ct start w =
    (Raise (NameError "generateCo2"), w).
Proof. repeat split. Qed.

(** C8 at a valid input: three rows are asked for and the call raises
    instead of returning three tuples with the maintenance field at 0. *)
Theorem tuples_call_returns_no_rows :
  fst (generatePowerOffTuples "101" 3 4.4%float None None mixed_world) =
    Raise (NameError "generatePowerOff") /\
  fst (generateCo2Tuples "101" 3 4.4%float None None mixed_world) =
    Raise (NameError "generateCo2").
Proof. split; reflexivity. Qed.

(** Lines 218-225 on their own: given the frame the tabular power-loss
    generator returns, they yield one 12-field tuple per row with the
    maintenance field (position 10) forced to 0. *)
Lemma tuples_of_power_off_frame cid n tgood ct start w df w1 w2 :
  generatePowerOff cid n tgood ct start w = (Ok df, w1) ->
  exists recs,
    tuples_of df n w2 = (Ok recs, w2) /\
    List.length recs = Z.to_nat n /\
    Forall (fun r => List.length r = 12%nat /\
                     nth_error r 10 = Some (IntCell 0)) recs.
Proof.
  intros H.
  assert (Hn : 0 <= n) by (apply power_off_frame in H; apply H).
  destruct (generatePowerOff_ok cid n tgood ct start w Hn)
    as (ts & ids & tgoods & cts & o2 & co2 & door & defrost & w1' & E
        & L1 & L2 & L3 & L4 & L5 & L6 & L7 & L8 & L9).
  cbv zeta in E. rewrite E in H. injection H as <- _.
  set (rows := fst (sm_run tgood (Z.to_nat n)
                      (py_after_content_type ct (py_random w)))) in *.
  clearbody rows.
  unfold tuples_of, bind, np_repeat.
  apply Z.ltb_ge in Hn. rewrite Hn. unfold ret at 1.
  rewrite df_setitem_ok by (cbn [col_length]; rewrite repeat_length; congruence).
  run_frame. unfold to_records, df_nrows. cbn [col_length]. rewrite L1.
  eexists. split; [reflexivity|].
  split; [now rewrite length_map, length_seq|].
  apply Forall_map, Forall_forall. intros i Hi. apply in_seq in Hi.
  cbn [record_at col_cell].
  repeat match goal with
  | |- context [nth_error ?v i] =>
      let x := fresh "x" in let Ex := fresh "Ex" in
      destruct (nth_error v i) as [x|] eqn:Ex;
      [ cbn [option_map]
      | apply nth_error_None in Ex;
        rewrite ?length_map, ?repeat_length in Ex; lia ]
  end.
  split; [reflexivity|]. cbn [nth_error].
  match goal with
  | Ex : nth_error (repeat 0 _) i = Some ?x |- _ =>
      apply nth_error_In, repeat_spec in Ex; now rewrite Ex
  end.
Qed.

(** * Further properties of the generators *)

(** ** Draws from the NumPy generator *)

Lemma skip_0 g : skip 0 g = g.
Proof. destruct g. unfold skip. cbn. now rewrite Nat.add_0_r. Qed.

Lemma skip_skip a b g : skip b (skip a g) = skip (a + b) g.
Proof. unfold skip. cbn. f_equal. lia. Qed.

Lemma advance_skip k g : advance (skip k g) = skip (S k) g.
Proof. unfold advance, skip. cbn. f_equal. lia. Qed.

Lemma draw_many_normal loc scale n : forall g k,
  draw_many (normal1 loc scale) n (skip k g) =
  (normal_block loc scale g k n, skip (k + n) g).
Proof.
  unfold normal_block.
  induction n as [|n IH]; intros g k.
  - cbn. now rewrite Nat.add_0_r.
  - cbn [draw_many]. unfold normal1 at 1. rewrite advance_skip, IH.
    cbn [seq map deviates cursor skip]. f_equal.
    + f_equal.
      * now rewrite Nat.add_0_r.
      * rewrite <- seq_shift, map_map. apply map_ext. intros i.
        do 3 f_equal. lia.
    + f_equal. lia.
Qed.

Lemma draw_many_randint low high n : forall g k,
  draw_many (randint1 low high) n (skip k g) =
  (randint_block low high g k n, skip (k + n) g).
Proof.
  unfold randint_block.
  induction n as [|n IH]; intros g k.
  - cbn. now rewrite Nat.add_0_r.
  - cbn [draw_many]. unfold randint1 at 1. rewrite advance_skip, IH.
    cbn [seq map integers cursor skip]. f_equal.
    + f_equal.
      * now rewrite Nat.add_0_r.
      * rewrite <- seq_shift, map_map. apply map_ext. intros i.
        do 3 f_equal. lia.
    + f_equal. lia.
Qed.

Lemma draw_many_normal0 loc scale n g :
  draw_many (normal1 loc scale) n g =
  (normal_block loc scale g 0 n, skip n g).
Proof. rewrite <- (skip_0 g) at 1. apply draw_many_normal. Qed.

(** ** The frames, column by column *)

(** The frame [_generateStationaryCols] builds from [n] rows. *)
Lemma stationary_cols_returns n cid ct tgood w :
  0 <= n ->
  let N := Z.to_nat n in
  let g := np_random w in
  _generateStationaryCols n cid ct tgood w =
  (Ok [ ("ID", StrCol (repeat cid N));
        ("ContentType",
         IntCol (repeat (chosen_content_type ct (py_random w)) N));
        ("Target_Temperature(celsius)", FloatCol (repeat tgood N));
        ("O2", FloatCol (normal_block 21%float 3%float g 0 N));
        ("CO2", FloatCol (normal_block 4%float 3%float g N N));
        ("Time_Door_Open",
         FloatCol (normal_block 30%float 2%float g (2 * N) N));
        ("Temperature(celsius)",
         FloatCol (normal_block tgood 2%float g (3 * N) N));
        ("Power", FloatCol (normal_block POWER_LEVEL 6%float g (4 * N) N));
        ("Defrost_Cycle", IntCol (randint_block 0 7 g (5 * N) N)) ],
   mkWorld (py_after_content_type ct (py_random w)) (skip (6 * N) g)
           (today w)).
Proof.
  intros Hn N g. apply Z.ltb_ge in Hn.
  unfold _generateStationaryCols, bind, np_repeat, np_random_normal,
    np_random_randint, with_np, with_py, ret, raise.
  rewrite Hn. fold N.
  change (float_of_int O2_LEVEL) with 21%float.
  change (float_of_int CO2_LEVEL) with 4%float.
  change DEFROST_LEVEL with 7.
  destruct ct as [c|];
    cbn [randint fst snd py_random np_random today chosen_content_type
         py_after_content_type];
    fold g;
    rewrite draw_many_normal0;
    repeat (cbn [fst snd py_random np_random today];
            first [rewrite draw_many_normal | rewrite draw_many_randint]);
    cbn [fst snd py_random np_random today];
    replace (N + N)%nat with (2 * N)%nat by lia;
    replace (2 * N + N)%nat with (3 * N)%nat by lia;
    replace (3 * N + N)%nat with (4 * N)%nat by lia;
    replace (4 * N + N)%nat with (5 * N)%nat by lia;
    replace (5 * N + N)%nat with (6 * N)%nat by lia;
    reflexivity.
Qed.

Lemma timestamps_returns n start w :
  0 <= n ->
  _generateTimestamps n start w =
  (Ok (map (fun i => start_instant start w + Z.of_nat i * FIFTEEN_MIN)
           (seq 0 (Z.to_nat n))), w).
Proof.
  intros Hn. apply Z.ltb_ge in Hn.
  unfold _generateTimestamps, bind, pd_date_range, datetime_today, ret.
  destruct start; rewrite Hn; reflexivity.
Qed.

Ltac column_lengths :=
  cbn [col_length]; unfold normal_block, randint_block;
  rewrite ?length_map, ?length_seq, ?repeat_length, ?sm_run_length,
    ?cumsum_length, ?length_map, ?length_seq;
  reflexivity.

(** The Dataset [generatePowerOff] returns for [n] rows, and the state it
    leaves the two generators in. *)
Lemma generatePowerOff_returns cid n tgood ct start w :
  0 <= n ->
  let N := Z.to_nat n in
  let g := np_random w in
  let py := py_after_content_type ct (py_random w) in
  let rows := fst (sm_run tgood N py) in
  generatePowerOff cid n tgood ct start w =
  (Ok [ ("Timestamp",
         TimeCol (map (fun i => start_instant start w
                                + Z.of_nat i * FIFTEEN_MIN) (seq 0 N)));
        ("ID", StrCol (repeat cid N));
        ("Temperature(celsius)", FloatCol (map new_temp rows));
        ("Target_Temperature(celsius)", FloatCol (repeat tgood N));
        ("Power", FloatCol (map new_power rows));
        ("PowerConsumption", FloatCol (map new_power_consumption rows));
        ("ContentType",
         IntCol (repeat (chosen_content_type ct (py_random w)) N));
        ("O2", FloatCol (normal_block 21%float 3%float g 0 N));
        ("CO2", FloatCol (normal_block 4%float 3%float g N N));
        ("Time_Door_Open",
         FloatCol (normal_block 30%float 2%float g (2 * N) N));
        ("Maintenance_Required", IntCol (map new_maint_req rows));
        ("Defrost_Cycle", IntCol (randint_block 0 7 g (5 * N) N)) ],
   mkWorld (snd (sm_run tgood N py)) (skip (6 * N) g) (today w)).
Proof.
  intros Hn N g py rows.
  unfold generatePowerOff, bind.
  rewrite stationary_cols_returns by exact Hn. cbv zeta.
  rewrite timestamps_returns by exact Hn.
  fold N. fold g. fold py.
  unfold start_instant at 1. cbn [today].
  fold (start_instant start w).
  rewrite df_setitem_ok by column_lengths.
  rewrite simulatePowerOff_ok by exact Hn.
  cbn [py_random np_random today]. fold N. fold rows.
  set (ts := map _ (seq 0 N)).
  set (temps := normal_block tgood _ _ _ _).
  set (power := normal_block POWER_LEVEL _ _ _ _).
  set (o2 := normal_block 21%float _ _ _ _).
  set (co2 := normal_block 4%float _ _ _ _).
  set (door := normal_block 30%float _ _ _ _).
  set (defrost := randint_block _ _ _ _ _).
  assert (Lt : List.length temps = N) by (unfold temps; column_lengths).
  assert (Lp : List.length power = N) by (unfold power; column_lengths).
  assert (Lts : List.length ts = N) by (unfold ts; column_lengths).
  assert (Lr : List.length rows = N) by apply sm_run_length.
  clearbody ts temps power o2 co2 door defrost rows.
  repeat (progress (run_frame;
    rewrite ?df_setitem_ok
      by (cbn [col_length]; rewrite ?length_map, ?repeat_length;
          congruence))).
  reflexivity.
Qed.

(** The Dataset [generateCo2] returns for [n] rows. *)
Lemma generateCo2_returns cid n tgood ct start w :
  0 <= n ->
  let N := Z.to_nat n in
  let g := np_random w in
  let power := normal_block POWER_LEVEL 6%float g (4 * N) N in
  let co2 := normal_block 4%float 3%float g N N in
  generateCo2 cid n tgood ct start w =
  (Ok [ ("Timestamp",
         TimeCol (map (fun i => start_instant start w
                                + Z.of_nat i * FIFTEEN_MIN) (seq 0 N)));
        ("ID", StrCol (repeat cid N));
        ("Temperature(celsius)",
         FloatCol (normal_block tgood 2%float g (3 * N) N));
        ("Target_Temperature(celsius)", FloatCol (repeat tgood N));
        ("Power", FloatCol power);
        ("PowerConsumption", FloatCol (cumsum power));
        ("ContentType",
         IntCol (repeat (chosen_content_type ct (py_random w)) N));
        ("O2", FloatCol (normal_block 21%float 3%float g 0 N));
        ("CO2", FloatCol co2);
        ("Time_Door_Open",
         FloatCol (normal_block 30%float 2%float g (2 * N) N));
        ("Maintenance_Required", IntCol (map co2_flag co2));
        ("Defrost_Cycle", IntCol (randint_block 0 7 g (5 * N) N)) ],
   mkWorld (py_after_content_type ct (py_random w)) (skip (6 * N) g)
           (today w)).
Proof.
  intros Hn N g power co2.
  unfold generateCo2, bind.
  rewrite stationary_cols_returns by exact Hn. cbv zeta.
  rewrite timestamps_returns by exact Hn.
  fold N. fold g. fold power. fold co2.
  unfold start_instant at 1. cbn [today].
  fold (start_instant start w).
  rewrite df_setitem_ok by column_lengths.
  set (ts := map _ (seq 0 N)).
  set (temps := normal_block tgood _ _ _ _).
  set (o2 := normal_block 21%float _ _ _ _).
  set (door := normal_block 30%float _ _ _ _).
  set (defrost := randint_block _ _ _ _ _).
  assert (Lp : List.length power = N) by (unfold power; column_lengths).
  assert (Lc : List.length co2 = N) by (unfold co2; column_lengths).
  assert (Lts : List.length ts = N) by (unfold ts; column_lengths).
  clearbody ts temps power o2 co2 door defrost.
  repeat (progress (run_frame;
    rewrite ?df_setitem_ok
      by (cbn [col_length];
          rewrite ?length_map, ?repeat_length, ?cumsum_length;
          congruence))).
  reflexivity.
Qed.

(** ** More on the power-off loop *)

Lemma sm_loop_final tgood nb : forall st g,
  (snd (fst (sm_loop tgood nb st g)), snd (sm_loop tgood nb st g)) =
  sm_before tgood nb st g.
Proof.
  induction nb as [|nb IH]; intros st g; [reflexivity|].
  cbn [sm_loop sm_before].
  destruct (sm_step tgood st g) as [[row st1] g1].
  specialize (IH st1 g1).
  destruct (sm_loop tgood nb st1 g1) as [[rows st2] g2]. exact IH.
Qed.

Lemma sm_run_final tgood nb g : snd (sm_run tgood nb g) = rng_at tgood g nb.
Proof.
  unfold sm_run, rng_at, sm_at.
  destruct (sm_init tgood g) as [st0 g0].
  pose proof (sm_loop_final tgood nb st0 g0) as H.
  destruct (sm_loop tgood nb st0 g0) as [[rows st1] g1].
  cbn [fst snd] in *. now rewrite <- H.
Qed.

Lemma sm_run_rows tgood nb g :
  fst (sm_run tgood nb g) = map (sm_row_at tgood g) (seq 0 nb).
Proof.
  apply nth_error_ext. intros i.
  destruct (Nat.lt_ge_cases i nb) as [Hi|Hi].
  - rewrite sm_run_nth by exact Hi.
    rewrite nth_error_map, nth_error_seq.
    apply Nat.ltb_lt in Hi. now rewrite Hi.
  - rewrite (proj2 (nth_error_None _ _)) by (rewrite sm_run_length; lia).
    symmetry. apply nth_error_None. rewrite length_map, length_seq. lia.
Qed.

(** No stored power is negative. *)
Lemma row_power_not_negative tgood g i :
  PrimFloat.ltb (new_power (sm_row_at tgood g i)) 0%float = false.
Proof.
  rewrite sm_row_at_closed. cbv zeta. cbn [new_power].
  destruct (PrimFloat.ltb (sampled_pwr (rng_at tgood g i)) 0%float) eqn:E;
    cbn [orb]; [reflexivity|].
  destruct (in_episode _); [reflexivity | exact E].
Qed.

Lemma counter_step_in_episode c pwr :
  0 < c <= 6 -> counter_after_branch c pwr = c + 1.
Proof.
  intros Hc. unfold counter_after_branch. fold (in_episode c).
  rewrite (in_episode_pos c Hc). now destruct (PrimFloat.ltb pwr 0%float).
Qed.

Lemma counter_step_idle pwr :
  counter_after_branch 0 pwr =
  if PrimFloat.ltb pwr 0%float then 1 else 0.
Proof.
  unfold counter_after_branch. now destruct (PrimFloat.ltb pwr 0%float).
Qed.

(** Once an episode has started the counter goes up by one on every row
    until it has counted six. *)
Lemma episode_counts_up tgood g i :
  count_at tgood g i = 0 ->
  PrimFloat.ltb (sampled_pwr (rng_at tgood g i)) 0%float = true ->
  forall k, (1 <= k <= 6)%nat -> count_at tgood g (i + k) = Z.of_nat k.
Proof.
  intros C0 Neg k. induction k as [|k IH]; intros Hk; [lia|].
  replace (i + S k)%nat with (S (i + k)) by lia.
  rewrite count_at_succ. cbv zeta.
  destruct (Nat.eq_dec k 0) as [->|Hk0].
  - rewrite Nat.add_0_r, C0, counter_step_idle, Neg. reflexivity.
  - rewrite IH by lia.
    rewrite counter_step_in_episode by lia.
    unfold NB_RECORDS_IMPACTED.
    destruct (Z.eqb_spec (Z.of_nat k + 1) 7); lia.
Qed.

Lemma flagged_iff_trigger tgood g j :
  new_maint_req (sm_row_at tgood g j) = 1 <->
  (6 <= j)%nat /\
  count_at tgood g (j - 6) = 0 /\
  PrimFloat.ltb (sampled_pwr (rng_at tgood g (j - 6))) 0%float = true.
Proof.
  split.
  - intros F. destruct (flagged_row tgood g j F) as (_ & _ & C6 & _).
    destruct (episode_rows_back tgood g j 6) as (L & _ & _ & C0); [lia|lia|].
    destruct (episode_rows_back tgood g j 5) as (_ & _ & _ & C1); [lia|lia|].
    rewrite C6 in C0, C1.
    split; [exact L|]. split; [lia|].
    replace (j - 5)%nat with (S (j - 6)) in C1 by lia.
    rewrite count_at_succ in C1. cbv zeta in C1.
    replace (count_at tgood g (j - 6)) with 0 in C1 by lia.
    rewrite counter_step_idle in C1.
    destruct (PrimFloat.ltb _ 0%float); [reflexivity | discriminate C1].
  - intros (L & C0 & Neg).
    apply (proj1 (flag_values tgood g j)).
    pose proof (episode_counts_up tgood g (j - 6) C0 Neg 6) as C6.
    replace (j - 6 + 6)%nat with j in C6 by lia.
    rewrite C6 by lia. now rewrite counter_step_in_episode by lia.
Qed.

Lemma flag_is_0_or_1 tgood g i :
  new_maint_req (sm_row_at tgood g i) = 0 \/
  new_maint_req (sm_row_at tgood g i) = 1.
Proof.
  rewrite sm_row_at_closed. cbv zeta. cbn [new_maint_req].
  destruct (_ =? NB_RECORDS_IMPACTED); auto.
Qed.

Lemma flag_count_snoc l x :
  flag_count (l ++ [x]) =
  (flag_count l + if Z.eq_dec x 1 then 1 else 0)%nat.
Proof.
  unfold flag_count. rewrite count_occ_app. cbn [count_occ].
  destruct (Z.eq_dec x 1); reflexivity.
Qed.

(** Seven rows are used up for every flag raised so far. *)
Lemma flags_use_seven_rows tgood g n :
  7 * Z.of_nat (flag_count (map new_maint_req (fst (sm_run tgood n g))))
  + count_at tgood g n <= Z.of_nat n.
Proof.
  induction n as [|n IH].
  - unfold count_at. rewrite vars_at_0. cbn. lia.
  - rewrite sm_run_rows in *. rewrite seq_S, !map_app. cbn [map Nat.add].
    rewrite flag_count_snoc, count_at_succ. cbv zeta.
    pose proof (count_at_range tgood g n) as R.
    destruct (flag_values tgood g n) as [Fiff F0]. cbv zeta in Fiff, F0.
    destruct (counter_after_branch_cases (count_at tgood g n)
                (sampled_pwr (rng_at tgood g n))) as [[E _]|[E _]];
      rewrite E in *; unfold NB_RECORDS_IMPACTED;
      destruct (Z.eqb_spec (count_at tgood g n + 1) 7) as [E7|E7];
      destruct (Z.eqb_spec (count_at tgood g n) 7) as [E7'|E7'];
      try lia;
      try (rewrite (proj2 Fiff) by assumption);
      try (rewrite F0 by assumption);
      destruct (Z.eq_dec _ 1); try lia; try discriminate.
Qed.

Lemma idle_row_reseeds tgood g i :
  count_at tgood g i = 0 ->
  is_zero (pwrc (vars_at tgood g i)) = true ->
  new_power_consumption (sm_row_at tgood g i) =
    sampled_reseed (rng_at tgood g i) /\
  new_maint_req (sm_row_at tgood g i) = 0.
Proof.
  intros C0 Z0. rewrite sm_row_at_closed. cbv zeta.
  cbn [new_power_consumption new_maint_req].
  fold (count_at tgood g i). rewrite C0, Z0, counter_step_idle.
  destruct (PrimFloat.ltb _ 0%float); split; reflexivity.
Qed.

Lemma cursor_at tgood n g : forall m,
  (m <= n)%nat ->
  cursor (rng_at tgood g m) =
  (cursor g + 1 + 2 * m + reseed_count (fst (sm_run tgood n g)) m)%nat.
Proof.
  unfold reseed_count.
  induction m as [|m IH]; intros Hm.
  - cbn. lia.
  - rewrite rng_at_succ. cbv zeta.
    rewrite (pwrc_at_previous tgood n g m) by lia.
    rewrite seq_S, filter_app, length_app. cbn [filter Nat.add].
    destruct (is_zero (previous_pwrc (fst (sm_run tgood n g)) m));
      cbn [advance cursor List.length]; rewrite IH by lia; lia.
Qed.

Lemma reseed_count_bounds rows n :
  (reseed_count rows n <= n)%nat /\
  (0 < n -> 1 <= reseed_count rows n)%nat.
Proof.
  unfold reseed_count. split.
  - etransitivity; [apply filter_length_le | now rewrite length_seq].
  - intros Hn. destruct n as [|n]; [lia|].
    cbn [seq filter previous_pwrc].
    change (is_zero 0%float) with true. cbn [List.length]. lia.
Qed.

(** ** Inverting a returned Dataset *)

Lemma power_off_returned cid n tgood ct start w df w' :
  generatePowerOff cid n tgood ct start w = (Ok df, w') ->
  0 <= n /\
  generatePowerOff cid n tgood ct start w = (Ok df, w') /\
  (Ok df, w') =
    (let N := Z.to_nat n in
     let g := np_random w in
     let py := py_after_content_type ct (py_random w) in
     let rows := fst (sm_run tgood N py) in
     (Ok [ ("Timestamp",
            TimeCol (map (fun i => start_instant start w
                                   + Z.of_nat i * FIFTEEN_MIN) (seq 0 N)));
           ("ID", StrCol (repeat cid N));
           ("Temperature(celsius)", FloatCol (map new_temp rows));
           ("Target_Temperature(celsius)", FloatCol (repeat tgood N));
           ("Power", FloatCol (map new_power rows));
           ("PowerConsumption",
            FloatCol (map new_power_consumption rows));
           ("ContentType",
            IntCol (repeat (chosen_content_type ct (py_random w)) N));
           ("O2", FloatCol (normal_block 21%float 3%float g 0 N));
           ("CO2", FloatCol (normal_block 4%float 3%float g N N));
           ("Time_Door_Open",
            FloatCol (normal_block 30%float 2%float g (2 * N) N));
           ("Maintenance_Required", IntCol (map new_maint_req rows));
           ("Defrost_Cycle", IntCol (randint_block 0 7 g (5 * N) N)) ],
      mkWorld (snd (sm_run tgood N py)) (skip (6 * N) g) (today w))).
Proof.
  intros H.
  assert (Hn : 0 <= n) by (apply power_off_frame in H; apply H).
  split; [exact Hn|]. split; [exact H|].
  rewrite <- H. apply generatePowerOff_returns. exact Hn.
Qed.

Lemma co2_returned cid n tgood ct start w df w' :
  generateCo2 cid n tgood ct start w = (Ok df, w') ->
  0 <= n /\
  (Ok df, w') =
    (let N := Z.to_nat n in
     let g := np_random w in
     let power := normal_block POWER_LEVEL 6%float g (4 * N) N in
     let co2 := normal_block 4%float 3%float g N N in
     (Ok [ ("Timestamp",
            TimeCol (map (fun i => start_instant start w
                                   + Z.of_nat i * FIFTEEN_MIN) (seq 0 N)));
           ("ID", StrCol (repeat cid N));
           ("Temperature(celsius)",
            FloatCol (normal_block tgood 2%float g (3 * N) N));
           ("Target_Temperature(celsius)", FloatCol (repeat tgood N));
           ("Power", FloatCol power);
           ("PowerConsumption", FloatCol (cumsum power));
           ("ContentType",
            IntCol (repeat (chosen_content_type ct (py_random w)) N));
           ("O2", FloatCol (normal_block 21%float 3%float g 0 N));
           ("CO2", FloatCol co2);
           ("Time_Door_Open",
            FloatCol (normal_block 30%float 2%float g (2 * N) N));
           ("Maintenance_Required", IntCol (map co2_flag co2));
           ("Defrost_Cycle", IntCol (randint_block 0 7 g (5 * N) N)) ],
      mkWorld (py_after_content_type ct (py_random w)) (skip (6 * N) g)
              (today w))).
Proof.
  intros H.
  assert (Hn : 0 <= n) by (apply co2_frame in H; apply H).
  split; [exact Hn|].
  rewrite <- H. apply generateCo2_returns. exact Hn.
Qed.

Ltac lookup_in H :=
  cbv beta iota zeta delta
    [df_lookup String.eqb Ascii.eqb Bool.eqb] in H.

(** ** Power-loss Datasets *)

(** X1. No row of a power-loss Dataset has a negative Power: a negative
    draw is stored as 0. *)
Theorem power_off_power_not_negative
    cid n tgood ct start w df w' pw i x :
  generatePowerOff cid n tgood ct start w = (Ok df, w') ->
  df_lookup "Power" df = Some (FloatCol pw) ->
  nth_error pw i = Some x ->
  PrimFloat.ltb x 0%float = false.
Proof.
  intros H Hp Hx.
  apply power_off_frame in H. cbv zeta in H.
  destruct H as (_ & _ & _ & Ep & _ & _).
  rewrite Ep in Hp. injection Hp as <-.
  apply run_column_row in Hx. destruct Hx as [_ ->].
  apply row_power_not_negative.
Qed.

Lemma power_off_power_not_negative_witness :
  exists df w' pw,
    generatePowerOff "101" 10 4.4%float (Some 2) (Some 0) mixed_world
      = (Ok df, w') /\
    df_lookup "Power" df = Some (FloatCol pw) /\
    nth_error pw 1 = Some 0%float /\
    PrimFloat.ltb (sampled_pwr
                     (rng_at 4.4%float (tape_rng mixed_tape) 1)) 0%float
      = true /\
    PrimFloat.ltb 0%float 0%float = false.
Proof.
  pose proof (generatePowerOff_returns "101" 10 4.4%float (Some 2) (Some 0)
                mixed_world ltac:(lia)) as E.
  cbv zeta in E.
  eexists _, _, _.
  split; [exact E|].
  split; [reflexivity|].
  split; [vm_compute; reflexivity|].
  split; [vm_compute; reflexivity|].
  refine (power_off_power_not_negative "101" 10 4.4%float (Some 2) (Some 0)
            mixed_world _ _ _ 1%nat 0%float E eq_refl _).
  vm_compute. reflexivity.
Defined.

(** X2. A row of a power-loss Dataset is flagged exactly when, six rows
    earlier, a row entered with the counter at 0 drew a negative power:
    an episode, once started, always runs its seven rows.  Every flag is
    0 or 1. *)
Theorem flag_six_rows_after_trigger cid n tgood ct start w df w' mr j :
  generatePowerOff cid n tgood ct start w = (Ok df, w') ->
  df_lookup "Maintenance_Required" df = Some (IntCol mr) ->
  (j < List.length mr)%nat ->
  let g := py_after_content_type ct (py_random w) in
  (nth_error mr j = Some 1 <->
     (6 <= j)%nat /\
     count_at tgood g (j - 6) = 0 /\
     PrimFloat.ltb (sampled_pwr (rng_at tgood g (j - 6))) 0%float = true) /\
  (nth_error mr j = Some 0 \/ nth_error mr j = Some 1).
Proof.
  intros H Hm Hj g.
  apply power_off_frame in H. cbv zeta in H.
  destruct H as (_ & _ & _ & _ & _ & Em).
  rewrite Em in Hm. injection Hm as <-.
  rewrite length_map, sm_run_length in Hj. fold g.
  rewrite run_column_at by exact Hj.
  split.
  - rewrite <- flagged_iff_trigger. split; [intros [= F] | intros F].
    + exact F.
    + now rewrite F.
  - destruct (flag_is_0_or_1 tgood g j) as [F|F]; rewrite F; auto.
Qed.

Lemma flag_six_rows_after_trigger_witness :
  exists df w' mr,
    generatePowerOff "101" 10 4.4%float (Some 2) (Some 0) mixed_world
      = (Ok df, w') /\
    df_lookup "Maintenance_Required" df = Some (IntCol mr) /\
    count_at 4.4%float (tape_rng mixed_tape) 1 = 0 /\
    PrimFloat.ltb (sampled_pwr
                     (rng_at 4.4%float (tape_rng mixed_tape) 1)) 0%float
      = true /\
    nth_error mr 7 = Some 1.
Proof.
  pose proof (generatePowerOff_returns "101" 10 4.4%float (Some 2) (Some 0)
                mixed_world ltac:(lia)) as E.
  cbv zeta in E.
  eexists _, _, _.
  split; [exact E|].
  split; [reflexivity|].
  split; [vm_compute; reflexivity|].
  split; [vm_compute; reflexivity|].
  pose proof (flag_six_rows_after_trigger "101" 10 4.4%float (Some 2)
                (Some 0) mixed_world _ _ _ 7%nat E eq_refl
                ltac:(vm_compute; lia)) as T.
  cbv zeta in T. destruct T as [T _]. apply T.
  repeat split; vm_compute; first [reflexivity | lia].
Defined.

(** X3. A power-loss Dataset of [n] rows holds at most [n / 7] flagged
    rows: seven rows go by for every flag. *)
Theorem power_off_flag_count cid n tgood ct start w df w' mr :
  generatePowerOff cid n tgood ct start w = (Ok df, w') ->
  df_lookup "Maintenance_Required" df = Some (IntCol mr) ->
  (7 * flag_count mr <= Z.to_nat n)%nat.
Proof.
  intros H Hm.
  apply power_off_frame in H. cbv zeta in H.
  destruct H as (_ & _ & _ & _ & _ & Em).
  rewrite Em in Hm. injection Hm as <-.
  set (g := py_after_content_type ct (py_random w)).
  pose proof (flags_use_seven_rows tgood g (Z.to_nat n)) as F.
  pose proof (count_at_range tgood g (Z.to_nat n)) as R.
  lia.
Qed.

Lemma power_off_flag_count_witness :
  exists df w' mr,
    generatePowerOff "101" 15 4.4%float (Some 2) (Some 0) adjacent_world
      = (Ok df, w') /\
    df_lookup "Maintenance_Required" df = Some (IntCol mr) /\
    flag_count mr = 2%nat /\
    (7 * flag_count mr <= Z.to_nat 15)%nat.
Proof.
  pose proof (generatePowerOff_returns "101" 15 4.4%float (Some 2) (Some 0)
                adjacent_world ltac:(lia)) as E.
  cbv zeta in E.
  eexists _, _, _.
  split; [exact E|].
  split; [reflexivity|].
  split; [vm_compute; reflexivity|].
  exact (power_off_flag_count "101" 15 4.4%float (Some 2) (Some 0)
           adjacent_world _ _ _ E eq_refl).
Defined.

(** X4. The accumulator starts afresh on the first row and on the row
    after a flagged one: [PowerConsumption] there is a new draw from
    N(7.2, 10), and the row after a flagged one is not flagged. *)
Theorem consumption_restarts cid n tgood ct start w df w' mr pc :
  generatePowerOff cid n tgood ct start w = (Ok df, w') ->
  df_lookup "Maintenance_Required" df = Some (IntCol mr) ->
  df_lookup "PowerConsumption" df = Some (FloatCol pc) ->
  let g := py_after_content_type ct (py_random w) in
  (0 < n ->
     nth_error pc 0 = Some (sampled_reseed (rng_at tgood g 0))) /\
  (forall i,
     (S i < List.length pc)%nat ->
     nth_error mr i = Some 1 ->
     nth_error pc (S i) = Some (sampled_reseed (rng_at tgood g (S i))) /\
     nth_error mr (S i) = Some 0).
Proof.
  intros H Hm Hc g.
  apply power_off_frame in H. cbv zeta in H.
  destruct H as (Hn & _ & _ & _ & Ec & Em).
  rewrite Em in Hm. injection Hm as <-.
  rewrite Ec in Hc. injection Hc as <-. fold g.
  split.
  - intros Hpos. rewrite run_column_at by lia. f_equal.
    apply idle_row_reseeds; reflexivity.
  - intros i Hi F.
    rewrite length_map, sm_run_length in Hi.
    apply run_column_row in F. destruct F as [_ F]. symmetry in F.
    destruct (flagged_row tgood g i F) as (_ & _ & _ & C0 & A0).
    rewrite !run_column_at by exact Hi.
    destruct (idle_row_reseeds tgood g (S i) C0) as [R M];
      [now rewrite A0|].
    now rewrite R, M.
Qed.

Lemma consumption_restarts_witness :
  exists df w' mr pc,
    generatePowerOff "101" 10 4.4%float (Some 2) (Some 0) mixed_world
      = (Ok df, w') /\
    df_lookup "Maintenance_Required" df = Some (IntCol mr) /\
    df_lookup "PowerConsumption" df = Some (FloatCol pc) /\
    nth_error mr 7 = Some 1 /\
    nth_error pc 8 =
      Some (sampled_reseed (rng_at 4.4%float (tape_rng mixed_tape) 8)) /\
    nth_error mr 8 = Some 0.
Proof.
  pose proof (generatePowerOff_returns "101" 10 4.4%float (Some 2) (Some 0)
                mixed_world ltac:(lia)) as E.
  cbv zeta in E.
  eexists _, _, _, _.
  split; [exact E|].
  split; [reflexivity|].
  split; [reflexivity|].
  split; [vm_compute; reflexivity|].
  pose proof (consumption_restarts "101" 10 4.4%float (Some 2) (Some 0)
                mixed_world _ _ _ _ E eq_refl eq_refl) as T.
  cbv zeta in T. destruct T as [_ T].
  apply (T 7%nat); vm_compute; first [reflexivity | lia].
Defined.

(** X5. What a power-loss Dataset of [n] rows costs the two generators:
    NumPy's delivers exactly [6 n] values (though the Temperature and
    Power it drew are discarded), Python's one value for the content type
    when none was supplied, one for the initial temperature, two per row
    and one more for each row entered with a zero accumulator. *)
Theorem power_off_draw_counts cid n tgood ct start w df w' :
  generatePowerOff cid n tgood ct start w = (Ok df, w') ->
  let N := Z.to_nat n in
  let g := py_after_content_type ct (py_random w) in
  let reseeds := reseed_count (fst (sm_run tgood N g)) N in
  np_random w' = skip (6 * N) (np_random w) /\
  today w' = today w /\
  cursor (py_random w') =
    (cursor (py_random w) + (match ct with None => 1 | Some _ => 0 end)
     + 1 + 2 * N + reseeds)%nat /\
  (reseeds <= N)%nat /\
  (0 < n -> (1 <= reseeds)%nat).
Proof.
  intros H N g reseeds.
  apply power_off_returned in H. destruct H as (Hn & _ & H).
  cbv zeta in H. injection H as _ ->.
  cbn [np_random py_random today]. fold N. fold g.
  rewrite sm_run_final, (cursor_at tgood N g N) by lia.
  fold reseeds.
  destruct (reseed_count_bounds (fst (sm_run tgood N g)) N) as [B1 B2].
  fold reseeds in B1, B2.
  repeat split; auto.
  - unfold g. destruct ct; cbn [py_after_content_type advance cursor]; lia.
  - intros Hpos. apply B2. lia.
Qed.

Lemma power_off_draw_counts_witness :
  exists df w',
    generatePowerOff "101" 10 4.4%float (Some 2) (Some 0) mixed_world
      = (Ok df, w') /\
    cursor (np_random w') = 60%nat /\
    cursor (py_random w') = (1 + 2 * 10 + 2)%nat.
Proof.
  pose proof (generatePowerOff_returns "101" 10 4.4%float (Some 2) (Some 0)
                mixed_world ltac:(lia)) as E.
  cbv zeta in E.
  eexists _, _.
  split; [exact E|].
  pose proof (power_off_draw_counts "101" 10 4.4%float (Some 2) (Some 0)
                mixed_world _ _ E) as T.
  cbv zeta in T. destruct T as (Tnp & _ & Tpy & _).
  split.
  - rewrite Tnp. reflexivity.
  - rewrite Tpy. vm_compute. reflexivity.
Defined.

(** X6. The Temperature, Power, PowerConsumption and Maintenance_Required
    columns of a power-loss Dataset depend on the row count, the target
    temperature and Python's generator only: not on NumPy's generator,
    the container id, the start time or the clock. *)
Theorem power_off_state_columns_ignore_numpy
    cid1 cid2 n tgood ct1 ct2 start1 start2 w1 w2 df1 df2 w1' w2' name :
  generatePowerOff cid1 n tgood ct1 start1 w1 = (Ok df1, w1') ->
  generatePowerOff cid2 n tgood ct2 start2 w2 = (Ok df2, w2') ->
  py_after_content_type ct1 (py_random w1) =
    py_after_content_type ct2 (py_random w2) ->
  In name [ "Temperature(celsius)"; "Power"; "PowerConsumption";
            "Maintenance_Required" ] ->
  df_lookup name df1 = df_lookup name df2 /\ df_lookup name df1 <> None.
Proof.
  intros H1 H2 Hpy Hin.
  apply power_off_frame in H1, H2. cbv zeta in H1, H2.
  destruct H1 as (_ & _ & T1 & P1 & C1 & M1).
  destruct H2 as (_ & _ & T2 & P2 & C2 & M2).
  rewrite Hpy in *.
  cbn [In] in Hin.
  destruct Hin as [<-|[<-|[<-|[<-|[]]]]]; split; congruence.
Qed.

Lemma power_off_state_columns_ignore_numpy_witness :
  exists df1 w1' df2 w2',
    generatePowerOff "101" 10 4.4%float (Some 2) (Some 0) mixed_world
      = (Ok df1, w1') /\
    generatePowerOff "202" 10 4.4%float (Some 5) None
      (mkWorld (tape_rng mixed_tape) (tape_rng adjacent_tape) 7)
      = (Ok df2, w2') /\
    df_lookup "Power" df1 = df_lookup "Power" df2 /\
    df_lookup "CO2" df1 <> df_lookup "CO2" df2.
Proof.
  pose proof (generatePowerOff_returns "101" 10 4.4%float (Some 2) (Some 0)
                mixed_world ltac:(lia)) as E1.
  pose proof (generatePowerOff_returns "202" 10 4.4%float (Some 5) None
                (mkWorld (tape_rng mixed_tape) (tape_rng adjacent_tape) 7)
                ltac:(lia)) as E2.
  cbv zeta in E1, E2.
  eexists _, _, _, _.
  split; [exact E1|]. split; [exact E2|].
  split.
  - apply (power_off_state_columns_ignore_numpy _ _ _ _ _ _ _ _ _ _ _ _ _ _
             "Power" E1 E2 eq_refl).
    cbn [In]. auto.
  - vm_compute. intros [= ].
Defined.

(** X7. [_simulatePowerOff] rejects a negative row count before any draw,
    and for 0 rows still makes the draw of the initial temperature and
    returns four empty columns; it never touches NumPy's generator. *)
Theorem simulatePowerOff_small_counts n tgood w :
  (n < 0 -> _simulatePowerOff n tgood w = (Raise ValueError, w)) /\
  (n = 0 ->
     _simulatePowerOff n tgood w =
     (Ok [ ("Temperature(celsius)", FloatCol []);
           ("Maintenance_Required", IntCol []);
           ("Power", FloatCol []);
           ("PowerConsumption", FloatCol []) ],
      mkWorld (advance (py_random w)) (np_random w) (today w))) /\
  (0 <= n ->
     exists cols w',
       _simulatePowerOff n tgood w = (Ok cols, w') /\
       map fst cols = [ "Temperature(celsius)"; "Maintenance_Required";
                        "Power"; "PowerConsumption" ] /\
       Forall (fun c => col_length (snd c) = Z.to_nat n) cols /\
       np_random w' = np_random w).
Proof.
  split; [|split].
  - intros Hn. apply Z.ltb_lt in Hn.
    unfold _simulatePowerOff. now rewrite Hn.
  - intros ->. reflexivity.
  - intros Hn. rewrite simulatePowerOff_ok by exact Hn.
    eexists _, _. split; [reflexivity|].
    split; [reflexivity|]. split; [|reflexivity].
    unfold sm_columns.
    repeat constructor; cbn [snd col_length];
      now rewrite length_map, sm_run_length.
Qed.

Lemma simulatePowerOff_small_counts_witness :
  _simulatePowerOff (-3) 4.4%float mixed_world = (Raise ValueError, mixed_world)
  /\ fst (_simulatePowerOff 0 4.4%float mixed_world) =
     Ok [ ("Temperature(celsius)", FloatCol []);
          ("Maintenance_Required", IntCol []);
          ("Power", FloatCol []);
          ("PowerConsumption", FloatCol []) ]
  /\ exists cols w',
       _simulatePowerOff 5 4.4%float mixed_world = (Ok cols, w').
Proof.
  destruct (simulatePowerOff_small_counts (-3) 4.4%float mixed_world)
    as (Neg & _ & _).
  destruct (simulatePowerOff_small_counts 0 4.4%float mixed_world)
    as (_ & Zero & _).
  destruct (simulatePowerOff_small_counts 5 4.4%float mixed_world)
    as (_ & _ & Pos).
  split; [apply Neg; lia|].
  split; [now rewrite (Zero eq_refl)|].
  destruct (Pos ltac:(lia)) as (cols & w' & E & _).
  exists cols, w'. exact E.
Defined.

(** ** Properties shared by the two scenarios *)

Lemma scenario_frame cid n tgood ct start w df w' :
  scenario_returns cid n tgood ct start w df w' ->
  let N := Z.to_nat n in
  let g := np_random w in
  0 <= n /\
  np_random w' = skip (6 * N) g /\
  today w' = today w /\
  exists temps power pc mr,
    List.length temps = N /\ List.length power = N /\
    List.length pc = N /\ List.length mr = N /\
    df =
    [ ("Timestamp",
       TimeCol (map (fun i => start_instant start w
                              + Z.of_nat i * FIFTEEN_MIN) (seq 0 N)));
      ("ID", StrCol (repeat cid N));
      ("Temperature(celsius)", FloatCol temps);
      ("Target_Temperature(celsius)", FloatCol (repeat tgood N));
      ("Power", FloatCol power);
      ("PowerConsumption", FloatCol pc);
      ("ContentType",
       IntCol (repeat (chosen_content_type ct (py_random w)) N));
      ("O2", FloatCol (normal_block 21%float 3%float g 0 N));
      ("CO2", FloatCol (normal_block 4%float 3%float g N N));
      ("Time_Door_Open",
       FloatCol (normal_block 30%float 2%float g (2 * N) N));
      ("Maintenance_Required", IntCol mr);
      ("Defrost_Cycle", IntCol (randint_block 0 7 g (5 * N) N)) ].
Proof.
  intros [H|H] N g.
  - apply power_off_returned in H. destruct H as (Hn & _ & H).
    cbv zeta in H. injection H as -> ->. fold N. fold g.
    repeat split; auto.
    do 4 eexists. repeat split; try reflexivity;
      now rewrite length_map, sm_run_length.
  - apply co2_returned in H. destruct H as (Hn & H).
    cbv zeta in H. injection H as -> ->. fold N. fold g.
    repeat split; auto.
    do 4 eexists. repeat split; try reflexivity;
      rewrite ?cumsum_length; unfold normal_block;
      now rewrite ?length_map, ?length_seq.
Qed.

(** X8. Whatever the scenario, a returned Dataset has the twelve columns
    of [COLUMN_ORDER], in that order, each with exactly the requested
    number of rows. *)
Theorem scenario_schema cid n tgood ct start w df w' :
  scenario_returns cid n tgood ct start w df w' ->
  0 <= n /\
  map fst df = COLUMN_ORDER /\
  Forall (fun c => col_length (snd c) = Z.to_nat n) df.
Proof.
  intros H. apply scenario_frame in H. cbv zeta in H.
  destruct H as (Hn & _ & _ & temps & power & pc & mr
                 & Lt & Lp & Lc & Lm & ->).
  split; [exact Hn|]. split; [reflexivity|].
  repeat constructor; cbn [snd col_length];
    unfold normal_block, randint_block;
    rewrite ?length_map, ?length_seq, ?repeat_length; auto.
Qed.

Lemma scenario_schema_witness :
  exists df w',
    scenario_returns "101" 4 4.4%float (Some 2) (Some 0) mixed_world df w' /\
    map fst df = COLUMN_ORDER /\
    Forall (fun c => col_length (snd c) = 4%nat) df.
Proof.
  pose proof (generateCo2_returns "101" 4 4.4%float (Some 2) (Some 0)
                mixed_world ltac:(lia)) as E.
  cbv zeta in E.
  eexists _, _.
  split; [right; exact E|].
  exact (proj2 (scenario_schema "101" 4 4.4%float (Some 2) (Some 0)
                  mixed_world _ _ (or_intror E))).
Defined.

(** X9. The identity columns of a Dataset are constant: every [ID] is the
    container id, every [Target_Temperature] the target, and every
    [ContentType] one and the same value, the one supplied (whatever it
    is: no range is checked) or, when none was supplied, a value drawn
    once between 1 and 5. *)
Theorem scenario_identity_columns cid n tgood ct start w df w' :
  scenario_returns cid n tgood ct start w df w' ->
  let N := Z.to_nat n in
  df_lookup "ID" df = Some (StrCol (repeat cid N)) /\
  df_lookup "Target_Temperature(celsius)" df
    = Some (FloatCol (repeat tgood N)) /\
  exists c,
    df_lookup "ContentType" df = Some (IntCol (repeat c N)) /\
    match ct with
    | Some supplied => c = supplied
    | None => 1 <= c <= 5
    end.
Proof.
  intros H N. apply scenario_frame in H. cbv zeta in H.
  destruct H as (Hn & _ & _ & temps & power & pc & mr & _ & _ & _ & _ & ->).
  split; [reflexivity|]. split; [reflexivity|].
  exists (chosen_content_type ct (py_random w)). split; [reflexivity|].
  destruct ct as [c|]; [reflexivity|].
  cbn [chosen_content_type randint fst].
  pose proof (Z.mod_pos_bound (integers (py_random w) (cursor (py_random w)))
                (5 - 1 + 1) ltac:(lia)).
  lia.
Qed.

Lemma scenario_identity_columns_witness :
  exists df w',
    scenario_returns "C-7" 3 4.4%float (Some 99) None mixed_world df w' /\
    df_lookup "ID" df = Some (StrCol ["C-7"; "C-7"; "C-7"]) /\
    df_lookup "ContentType" df = Some (IntCol [99; 99; 99]).
Proof.
  pose proof (generatePowerOff_returns "C-7" 3 4.4%float (Some 99) None
                mixed_world ltac:(lia)) as E.
  cbv zeta in E.
  eexists _, _.
  split; [left; exact E|].
  pose proof (scenario_identity_columns "C-7" 3 4.4%float (Some 99) None
                mixed_world _ _ (or_introl E)) as T.
  cbv zeta in T. destruct T as (Tid & _ & c & Tc & ->).
  split; [exact Tid | exact Tc].
Defined.

(** X10. Every [Defrost_Cycle] of a Dataset is an integer from 0 to 6. *)
Theorem scenario_defrost_range cid n tgood ct start w df w' d i x :
  scenario_returns cid n tgood ct start w df w' ->
  df_lookup "Defrost_Cycle" df = Some (IntCol d) ->
  nth_error d i = Some x ->
  0 <= x <= 6.
Proof.
  intros H Hd Hx. apply scenario_frame in H. cbv zeta in H.
  destruct H as (Hn & _ & _ & temps & power & pc & mr & _ & _ & _ & _ & ->).
  lookup_in Hd. injection Hd as <-.
  unfold randint_block in Hx. rewrite nth_error_map in Hx.
  destruct (nth_error (seq 0 (Z.to_nat n)) i) as [k|]; [|discriminate].
  cbn [option_map] in Hx. injection Hx as <-.
  match goal with
  | |- context [?k mod ?m] =>
      pose proof (Z.mod_pos_bound k m ltac:(lia))
  end.
  lia.
Qed.

Lemma scenario_defrost_range_witness :
  exists df w' d,
    scenario_returns "101" 4 4.4%float (Some 2) (Some 0) mixed_world df w' /\
    df_lookup "Defrost_Cycle" df = Some (IntCol d) /\
    nth_error d 0 = Some 6 /\ 0 <= 6 <= 6.
Proof.
  pose proof (generateCo2_returns "101" 4 4.4%float (Some 2) (Some 0)
                mixed_world ltac:(lia)) as E.
  cbv zeta in E.
  eexists _, _, _.
  split; [right; exact E|].
  split; [reflexivity|].
  split; [vm_compute; reflexivity|].
  refine (scenario_defrost_range "101" 4 4.4%float (Some 2) (Some 0)
            mixed_world _ _ _ 0%nat 6 (or_intror E) eq_refl _).
  vm_compute. reflexivity.
Defined.

(** X11. The [Timestamp] column starts at the supplied instant (at the
    clock's when none is supplied) and goes up by exactly fifteen minutes
    from each row to the next, in both scenarios. *)
Theorem scenario_timestamps cid n tgood ct start w df w' ts :
  scenario_returns cid n tgood ct start w df w' ->
  df_lookup "Timestamp" df = Some (TimeCol ts) ->
  List.length ts = Z.to_nat n /\
  (forall i t, nth_error ts i = Some t ->
     t = start_instant start w + Z.of_nat i * 900000000) /\
  (forall i a b, nth_error ts i = Some a -> nth_error ts (S i) = Some b ->
     b - a = 900000000).
Proof.
  intros H Ht. apply scenario_frame in H. cbv zeta in H.
  destruct H as (Hn & _ & _ & temps & power & pc & mr & _ & _ & _ & _ & ->).
  lookup_in Ht. injection Ht as <-.
  assert (Nth : forall i t,
            nth_error (map (fun i => start_instant start w
                                     + Z.of_nat i * FIFTEEN_MIN)
                           (seq 0 (Z.to_nat n))) i = Some t ->
            t = start_instant start w + Z.of_nat i * 900000000).
  { intros i t Hi. rewrite nth_error_map in Hi.
    destruct (nth_error (seq 0 (Z.to_nat n)) i) as [k|] eqn:Ek;
      [|discriminate].
    rewrite nth_error_seq in Ek.
    destruct (i <? Z.to_nat n)%nat; [|discriminate].
    injection Ek as <-. cbn in Hi. injection Hi as <-. reflexivity. }
  split; [now rewrite length_map, length_seq|].
  split; [exact Nth|].
  intros i a b Ha Hb. apply Nth in Ha, Hb. lia.
Qed.

Lemma scenario_timestamps_witness :
  exists df w' ts,
    scenario_returns "101" 4 4.4%float (Some 2) None mixed_world df w' /\
    df_lookup "Timestamp" df = Some (TimeCol ts) /\
    nth_error ts 3 = Some 2701000000 /\
    2701000000 = today mixed_world + 3 * 900000000.
Proof.
  pose proof (generatePowerOff_returns "101" 4 4.4%float (Some 2) None
                mixed_world ltac:(lia)) as E.
  cbv zeta in E.
  eexists _, _, _.
  split; [left; exact E|].
  split; [reflexivity|].
  split; [vm_compute; reflexivity|].
  pose proof (scenario_timestamps "101" 4 4.4%float (Some 2) None
                mixed_world _ _ _ (or_introl E) eq_refl) as (_ & T & _).
  apply (T 3%nat 2701000000). vm_compute. reflexivity.
Defined.

Lemma normal_block_nth loc scale g k n i :
  (i < n)%nat ->
  nth_error (normal_block loc scale g k n) i =
  Some (PrimFloat.add loc
          (PrimFloat.mul scale (deviates g (cursor g + k + i)))).
Proof.
  intros Hi. unfold normal_block.
  rewrite nth_error_map, nth_error_seq.
  apply Nat.ltb_lt in Hi. now rewrite Hi.
Qed.

(** X12. In both scenarios the gas and door columns are consecutive
    blocks of NumPy's stream, drawn column by column: with [c] draws made
    before the call, [O2[i]] is [21 + 3 z(c+i)], [CO2[i]] is
    [4 + 3 z(c+n+i)] and [Time_Door_Open[i]] is [30 + 2 z(c+2n+i)]; the
    generator ends [6 n] draws further. *)
Theorem scenario_gas_columns cid n tgood ct start w df w' i :
  scenario_returns cid n tgood ct start w df w' ->
  (i < Z.to_nat n)%nat ->
  let N := Z.to_nat n in
  let g := np_random w in
  let z k := deviates g (cursor g + k) in
  exists o2 co2 door,
    df_lookup "O2" df = Some (FloatCol o2) /\
    df_lookup "CO2" df = Some (FloatCol co2) /\
    df_lookup "Time_Door_Open" df = Some (FloatCol door) /\
    nth_error o2 i =
      Some (PrimFloat.add 21%float (PrimFloat.mul 3%float (z i))) /\
    nth_error co2 i =
      Some (PrimFloat.add 4%float (PrimFloat.mul 3%float (z (N + i)%nat))) /\
    nth_error door i =
      Some (PrimFloat.add 30%float
              (PrimFloat.mul 2%float (z (2 * N + i)%nat))) /\
    deviates (np_random w') = deviates g /\
    cursor (np_random w') = (cursor g + 6 * N)%nat.
Proof.
  intros H Hi N g z. apply scenario_frame in H. cbv zeta in H.
  destruct H as (Hn & Hnp & _ & temps & power & pc & mr
                 & _ & _ & _ & _ & ->).
  do 3 eexists.
  split; [reflexivity|]. split; [reflexivity|]. split; [reflexivity|].
  fold N. fold g. rewrite !normal_block_nth by exact Hi.
  unfold z. rewrite Hnp. cbn [skip deviates cursor].
  repeat split; do 4 f_equal; lia.
Qed.

Lemma scenario_gas_columns_witness :
  exists df w' co2,
    scenario_returns "101" 4 4.4%float (Some 2) (Some 0) mixed_world df w' /\
    df_lookup "CO2" df = Some (FloatCol co2) /\
    nth_error co2 1 =
      Some (PrimFloat.add 4%float
              (PrimFloat.mul 3%float (nth 5 mixed_tape 0%float))) /\
    cursor (np_random w') = 24%nat.
Proof.
  pose proof (generateCo2_returns "101" 4 4.4%float (Some 2) (Some 0)
                mixed_world ltac:(lia)) as E.
  cbv zeta in E.
  pose proof (scenario_gas_columns "101" 4 4.4%float (Some 2) (Some 0)
                mixed_world _ _ 1%nat (or_intror E) ltac:(vm_compute; lia))
    as T.
  cbv zeta in T.
  destruct T as (o2 & co2 & door & _ & Lc & _ & _ & Tc & _ & _ & Tn).
  eexists _, _, co2.
  split; [right; exact E|].
  split; [exact Lc|].
  split; [exact Tc | exact Tn].
Defined.

(** X13. In the CO2 scenario the Temperature and Power columns are the
    stationary draws themselves, [tgood + 2 z(c+3n+i)] and
    [7.2 + 6 z(c+4n+i)], and Python's generator is used for nothing but
    the draw of a content type that was not supplied. *)
Theorem co2_temperature_and_power cid n tgood ct start w df w' i :
  generateCo2 cid n tgood ct start w = (Ok df, w') ->
  (i < Z.to_nat n)%nat ->
  let N := Z.to_nat n in
  let g := np_random w in
  let z k := deviates g (cursor g + k) in
  exists temps power,
    df_lookup "Temperature(celsius)" df = Some (FloatCol temps) /\
    df_lookup "Power" df = Some (FloatCol power) /\
    nth_error temps i =
      Some (PrimFloat.add tgood
              (PrimFloat.mul 2%float (z (3 * N + i)%nat))) /\
    nth_error power i =
      Some (PrimFloat.add POWER_LEVEL
              (PrimFloat.mul 6%float (z (4 * N + i)%nat))) /\
    py_random w' = py_after_content_type ct (py_random w).
Proof.
  intros H Hi N g z. apply co2_returned in H. destruct H as (Hn & H).
  cbv zeta in H. injection H as -> ->.
  do 2 eexists.
  split; [reflexivity|]. split; [reflexivity|].
  fold N. fold g. rewrite !normal_block_nth by exact Hi.
  unfold z. cbn [py_random].
  repeat split; do 4 f_equal; lia.
Qed.

Lemma co2_temperature_and_power_witness :
  exists df w' power,
    generateCo2 "101" 4 4.4%float None (Some 0) mixed_world = (Ok df, w') /\
    df_lookup "Power" df = Some (FloatCol power) /\
    nth_error power 0 =
      Some (PrimFloat.add POWER_LEVEL
              (PrimFloat.mul 6%float (nth 16 mixed_tape 0%float))) /\
    cursor (py_random w') = 1%nat.
Proof.
  pose proof (generateCo2_returns "101" 4 4.4%float None (Some 0)
                mixed_world ltac:(lia)) as E.
  cbv zeta in E.
  pose proof (co2_temperature_and_power "101" 4 4.4%float None (Some 0)
                mixed_world _ _ 0%nat E ltac:(vm_compute; lia)) as T.
  cbv zeta in T.
  destruct T as (temps & power & _ & Lp & _ & Tp & Tpy).
  eexists _, _, power.
  split; [exact E|].
  split; [exact Lp|].
  split; [exact Tp|].
  rewrite Tpy. reflexivity.
Defined.

(** ** Row tuples of a returned Dataset *)

(** X14. Lines 218-225 (and 281-288), given the Dataset either tabular
    generator returns and the same row count, return one tuple per row,
    each of twelve fields in the order of [COLUMN_ORDER]: field [j] of
    tuple [i] is entry [i] of column [j], except the maintenance field
    (field 10), which is 0 in every tuple. *)
Theorem tuples_of_scenario_frame cid n tgood ct start w df w' w2 :
  scenario_returns cid n tgood ct start w df w' ->
  exists recs,
    tuples_of df n w2 = (Ok recs, w2) /\
    List.length recs = Z.to_nat n /\
    forall i r, nth_error recs i = Some r ->
      List.length r = 12%nat /\
      nth_error r 10 = Some (IntCell 0) /\
      forall j name c,
        nth_error COLUMN_ORDER j = Some name -> j <> 10%nat ->
        df_lookup name df = Some c ->
        nth_error r j = col_cell c i.
Proof.
  intros H. apply scenario_frame in H. cbv zeta in H.
  destruct H as (Hn & _ & _ & temps & power & pc & mr
                 & Lt & Lp & Lc & Lm & ->).
  set (N := Z.to_nat n) in *.
  set (ts := map _ (seq 0 N)).
  set (o2 := normal_block 21%float _ _ _ _).
  set (co2 := normal_block 4%float _ _ _ _).
  set (door := normal_block 30%float _ _ _ _).
  set (defrost := randint_block _ _ _ _ _).
  set (ct' := chosen_content_type _ _).
  assert (Lts : List.length ts = N) by (unfold ts; column_lengths).
  assert (Lo : List.length o2 = N) by (unfold o2; column_lengths).
  assert (Lco : List.length co2 = N) by (unfold co2; column_lengths).
  assert (Ld : List.length door = N) by (unfold door; column_lengths).
  assert (Ldf : List.length defrost = N) by (unfold defrost; column_lengths).
  clearbody ts o2 co2 door defrost ct'.
  unfold tuples_of, bind, np_repeat.
  apply Z.ltb_ge in Hn. rewrite Hn. unfold ret at 1.
  rewrite df_setitem_ok
    by (cbn [col_length]; rewrite repeat_length; fold N; congruence).
  run_frame. unfold to_records, df_nrows. cbn [col_length]. rewrite Lts.
  eexists. split; [reflexivity|].
  split; [now rewrite length_map, length_seq|].
  intros i r Hr. rewrite nth_error_map in Hr.
  destruct (nth_error (seq 0 N) i) as [k|] eqn:Ek; [|discriminate].
  assert (Hk : k = i /\ (i < N)%nat).
  { rewrite nth_error_seq in Ek.
    destruct (Nat.ltb_spec i N); [|discriminate].
    injection Ek as <-. auto. }
  destruct Hk as [-> Hi]. cbn [option_map] in Hr. injection Hr as <-.
  cbn [record_at col_cell]. fold N.
  repeat match goal with
  | |- context [nth_error ?v i] =>
      let x := fresh "x" in let Ex := fresh "Ex" in
      destruct (nth_error v i) as [x|] eqn:Ex;
      [ cbn [option_map]
      | apply nth_error_None in Ex;
        rewrite ?length_map, ?repeat_length in Ex; lia ]
  end.
  split; [reflexivity|]. split.
  - cbn [nth_error].
    match goal with
    | Ex : nth_error (repeat 0 _) i = Some ?x |- _ =>
        apply nth_error_In, repeat_spec in Ex; now rewrite Ex
    end.
  - intros j name c Hj Hne Hl.
    do 12 (destruct j as [|j];
           [ try congruence;
             cbn in Hj; injection Hj as <-;
             lookup_in Hl; injection Hl as <-;
             cbn [nth_error col_cell];
             match goal with
             | Ex : nth_error ?v i = Some _ |- context [nth_error ?v i] =>
                 rewrite Ex
             end; reflexivity
           | ]).
    cbn in Hj. destruct j; discriminate Hj.
Qed.

Lemma tuples_of_scenario_frame_witness :
  exists df w' recs r,
    scenario_returns "101" 4 4.4%float (Some 2) (Some 0) mixed_world df w' /\
    tuples_of df 4 mixed_world = (Ok recs, mixed_world) /\
    df_lookup "Maintenance_Required" df = Some (IntCol [0; 1; 1; 1]) /\
    nth_error recs 1 = Some r /\
    nth_error r 10 = Some (IntCell 0) /\
    nth_error r 8 = Some (FloatCell (-2)%float).
Proof.
  pose proof (generateCo2_returns "101" 4 4.4%float (Some 2) (Some 0)
                mixed_world ltac:(lia)) as E.
  cbv zeta in E.
  destruct (tuples_of_scenario_frame "101" 4 4.4%float (Some 2) (Some 0)
              mixed_world _ _ mixed_world (or_intror E))
    as (recs & Er & Lr & Rows).
  destruct (nth_error recs 1) as [r|] eqn:E1.
  - destruct (Rows 1%nat r E1) as (_ & R10 & Rj).
    eexists _, _, recs, r.
    split; [right; exact E|].
    split; [exact Er|].
    split; [vm_compute; reflexivity|].
    split; [exact E1|].
    split; [exact R10|].
    rewrite (Rj 8%nat "CO2" _ eq_refl ltac:(lia) eq_refl).
    vm_compute. reflexivity.
  - exfalso. apply nth_error_None in E1. rewrite Lr in E1.
    vm_compute in E1. lia.
Defined.

(** ** The Kafka producer wrapper *)

(** X15. The options a [KcProducer] is built with, by environment: the
    brokers and the group id are always set; the four SASL entries, with
    the API key as password, are set exactly when the environment is not
    ['LOCAL']; the CA location exactly when it is ['ICP'].  The dict
    printed is the producer's configuration itself, API key included. *)
Theorem producer_options_by_environment env brokers apikey topic groupID stdout :
  exists opts,
    KcProducer.init env brokers apikey topic groupID stdout =
      (KcProducer.mkInstance env brokers apikey topic
         (Some (KcProducer.mkProducer opts [])),
       (stdout ++ [opts])%list) /\
    KcProducer.dict_get "bootstrap.servers" opts = Some brokers /\
    KcProducer.dict_get "group.id" opts = Some groupID /\
    (env = "LOCAL" ->
       map fst opts = ["bootstrap.servers"; "group.id"]) /\
    (env <> "LOCAL" ->
       KcProducer.dict_get "security.protocol" opts = Some "SASL_SSL" /\
       KcProducer.dict_get "sasl.mechanisms" opts = Some "PLAIN" /\
       KcProducer.dict_get "sasl.username" opts = Some "token" /\
       KcProducer.dict_get "sasl.password" opts = Some apikey) /\
    (KcProducer.dict_get "ssl.ca.location" opts = Some "es-cert.pem"
       <-> env = "ICP") /\
    (List.length opts = 2 \/ List.length opts = 6 \/ List.length opts = 7)%nat.
Proof.
  unfold KcProducer.init, KcProducer.prepareProducer.
  cbn [KcProducer.kafka_env KcProducer.kafka_brokers KcProducer.kafka_apikey
       KcProducer.topic_name].
  destruct (String.eqb_spec env "LOCAL") as [EL|EL];
    destruct (String.eqb_spec env "ICP") as [EI|EI];
    cbn [negb]; eexists; (split; [reflexivity|]).
  all: try (subst; discriminate).
  all: repeat match goal with
              | |- _ /\ _ => split
              | |- _ <-> _ => split
              end;
       intros; try contradiction; cbn in *; try discriminate; auto.
Qed.

Lemma producer_options_by_environment_witness :
  exists opts,
    KcProducer.init "IBMCLOUD" "broker-0:9093" "s3cr3t" "reefers" "g1" [] =
      (KcProducer.mkInstance "IBMCLOUD" "broker-0:9093" "s3cr3t" "reefers"
         (Some (KcProducer.mkProducer opts [])), [opts]) /\
    KcProducer.dict_get "sasl.password" opts = Some "s3cr3t" /\
    KcProducer.dict_get "ssl.ca.location" opts = None.
Proof.
  destruct (producer_options_by_environment "IBMCLOUD" "broker-0:9093"
              "s3cr3t" "reefers" "g1" [])
    as (opts & E & _ & _ & _ & Sasl & Ca & _).
  exists opts. split; [exact E|].
  split.
  - apply Sasl. discriminate.
  - destruct (KcProducer.dict_get "ssl.ca.location" opts) as [v|] eqn:Ev;
      [|reflexivity].
    injection E as E _. subst opts. vm_compute in Ev. discriminate Ev.
Defined.

(** X16. [publishEvent] never hands a message to the producer: it
    evaluates [json.dumps], and the module imports no [json], so every
    call raises [NameError] before [produce] is reached. *)
Theorem publishEvent_raises_name_error self topicName eventToSend keyName :
  KcProducer.lookup_global "json" KcProducer.module_globals = None /\
  KcProducer.publishEvent self topicName eventToSend keyName =
    inl (KcProducer.NameError "json").
Proof. split; reflexivity. Qed.
